(** * covid_expert_system.py: a CLIPS rule base and its Tk front end

    The program loads a three-rule CLIPS knowledge base into a
    [clips.Environment] and, on every press of the button, resets the
    environment, asserts one [patient] fact built from four Tk string
    variables, runs the engine and shows the [message] slot of the first
    [result] fact.

    The development has three layers:
    - [Clips]: the part of the rule engine the program exercises (template
      facts with slot defaults, literal slot constraints, negated patterns,
      an agenda, [reset], [assert_string], [run]);
    - [KNOWLEDGE_BASE]: the rule text of the program as engine constructs;
    - [CovidExpertSystem]: the object state and [run_diagnosis]. *)

From Stdlib Require Import Bool List String Ascii Arith Lia.
Import ListNotations.
Open Scope string_scope.
Open Scope list_scope.

(** ** Results of effectful calls *)

Inductive exn : Type :=
| CLIPSError   (* raised by the engine binding *)
| KeyError.    (* raised by [fact[slot]] on an unknown slot *)

(** [Done] is a normal return and [Raised] a Python exception.  The other
    two are limits of the model, not behaviours of the program: [Beyond]
    marks a fact string, or a template name, outside the fragment of the
    engine modelled below and [OutOfFuel] a run cut short by the step
    bound. *)
Inductive outcome (A : Type) : Type :=
| Done (a : A)
| Raised (e : exn)
| Beyond
| OutOfFuel.

Arguments Done {A} a.
Arguments Raised {A} e.
Arguments Beyond {A}.
Arguments OutOfFuel {A}.

Definition bind {A B : Type} (m : outcome A) (k : A -> outcome B) : outcome B :=
  match m with
  | Done a => k a
  | Raised e => Raised e
  | Beyond => Beyond
  | OutOfFuel => OutOfFuel
  end.

Notation "x <- m ;; k" := (bind m (fun x => k))
  (at level 61, m at next level, right associativity).

Definition of_option {A : Type} (e : exn) (o : option A) : outcome A :=
  match o with
  | Some a => Done a
  | None => Raised e
  end.

(** ** The rule engine *)

Module Clips.

(** Field values.  The knowledge base uses two primitive types only. *)
Inductive value : Type :=
| SYMBOL (s : string)
| STRING (s : string).

Inductive primitive_type : Type := TSYMBOL | TSTRING.

Definition type_of (v : value) : primitive_type :=
  match v with
  | SYMBOL _ => TSYMBOL
  | STRING _ => TSTRING
  end.

Definition primitive_type_eqb (a b : primitive_type) : bool :=
  match a, b with
  | TSYMBOL, TSYMBOL | TSTRING, TSTRING => true
  | _, _ => false
  end.

(** Symbols are compared by their characters, case included. *)
Definition symbol_eqb (a b : string) : bool := String.eqb a b.

Definition value_eqb (a b : value) : bool :=
  match a, b with
  | SYMBOL x, SYMBOL y => symbol_eqb x y
  | STRING x, STRING y => String.eqb x y
  | _, _ => false
  end.

(** Slot lists are kept in template order, keyed by slot name. *)
Fixpoint lookup {A : Type} (k : string) (l : list (string * A)) : option A :=
  match l with
  | [] => None
  | (k', a) :: l' => if String.eqb k k' then Some a else lookup k l'
  end.

Record fact : Type := Fact {
  template_name : string;
  slot_values : list (string * value)
}.

Fixpoint slots_eqb (a b : list (string * value)) : bool :=
  match a, b with
  | [], [] => true
  | (s, v) :: a', (s', v') :: b' =>
      String.eqb s s' && value_eqb v v' && slots_eqb a' b'
  | _, _ => false
  end.

Definition fact_eqb (f g : fact) : bool :=
  String.eqb (template_name f) (template_name g)
  && slots_eqb (slot_values f) (slot_values g).

(** [(slot name (type T) (default d))] *)
Record slot_definition : Type := Slot {
  slot_name : string;
  slot_type : primitive_type;
  slot_default : value
}.

Record deftemplate : Type := Deftemplate {
  deftemplate_name : string;
  deftemplate_slots : list slot_definition
}.

(** A pattern names a template and constrains some slots to literals. *)
Record pattern : Type := Pattern {
  pattern_template : string;
  pattern_constraints : list (string * value)
}.

Inductive conditional_element : Type :=
| CE_pattern (p : pattern)
| CE_not (p : pattern).

(** [(assert (tpl (slot v) ...))] *)
Inductive action : Type :=
| Assert (tpl : string) (given : list (string * value)).

Record defrule : Type := Defrule {
  rule_name : string;
  rule_comment : string;
  lhs : list conditional_element;
  rhs : list action
}.

Record knowledge_base : Type := Constructs {
  deftemplates : list deftemplate;
  defrules : list defrule
}.

(** Conflict resolution among activations of equal salience. *)
Inductive strategy : Type := Depth | Breadth.

Record activation : Type := Activation {
  activation_rule : defrule;
  activation_basis : list nat
}.

(** The fact list is kept in fact-index order; the head of the agenda is
    the activation that fires next. *)
Record environment : Type := Environment {
  constructs : knowledge_base;
  conflict_strategy : strategy;
  fact_list : list (nat * fact);
  next_index : nat;
  agenda : list activation
}.

(** [clips.Environment()]: nothing loaded, depth strategy. *)
Definition new_environment : environment :=
  {| constructs := Constructs [] [];
     conflict_strategy := Depth;
     fact_list := [];
     next_index := 1;
     agenda := [] |}.

(** [env.load(path)] for a file holding the constructs [kb]. *)
Definition load (kb : knowledge_base) (env : environment) : environment :=
  {| constructs :=
       Constructs (deftemplates (constructs env) ++ deftemplates kb)
                  (defrules (constructs env) ++ defrules kb);
     conflict_strategy := conflict_strategy env;
     fact_list := fact_list env;
     next_index := next_index env;
     agenda := agenda env |}.

(** [env.reset()]: facts and agenda are emptied, constructs are kept.  The
    knowledge base has no deffacts, so nothing is asserted again. *)
Definition reset (env : environment) : environment :=
  {| constructs := constructs env;
     conflict_strategy := conflict_strategy env;
     fact_list := [];
     next_index := 1;
     agenda := [] |}.

(** [env.facts()] *)
Definition facts (env : environment) : list fact := map snd (fact_list env).

(** *** Matching *)

Definition constraint_holds (f : fact) (c : string * value) : bool :=
  match lookup (fst c) (slot_values f) with
  | Some v => value_eqb v (snd c)
  | None => false
  end.

Definition matches (p : pattern) (f : fact) : bool :=
  String.eqb (pattern_template p) (template_name f)
  && forallb (constraint_holds f) (pattern_constraints p).

Definition some_fact_matches (p : pattern) (wm : list (nat * fact)) : bool :=
  existsb (fun e => matches p (snd e)) wm.

(** All ways of satisfying a left-hand side in working memory [wm]: one
    fact index per pattern, in the order of the patterns; a negated pattern
    contributes no index and blocks the rule when some fact matches it. *)
Fixpoint bases (ces : list conditional_element) (wm : list (nat * fact))
  : list (list nat) :=
  match ces with
  | [] => [[]]
  | CE_pattern p :: rest =>
      flat_map (fun e => if matches p (snd e)
                         then map (cons (fst e)) (bases rest wm)
                         else []) wm
  | CE_not p :: rest =>
      if some_fact_matches p wm then [] else bases rest wm
  end.

Fixpoint negations_hold (ces : list conditional_element)
  (wm : list (nat * fact)) : bool :=
  match ces with
  | [] => true
  | CE_pattern _ :: rest => negations_hold rest wm
  | CE_not p :: rest => negb (some_fact_matches p wm) && negations_hold rest wm
  end.

(** Activations of rule [r] that the fact with index [i] takes part in. *)
Definition activations_with (i : nat) (wm : list (nat * fact)) (r : defrule)
  : list activation :=
  map (Activation r)
      (filter (fun b => existsb (Nat.eqb i) b) (bases (lhs r) wm)).

(** Placing one new activation among those of equal salience. *)
Definition place (s : strategy) (ag : list activation) (a : activation)
  : list activation :=
  match s with
  | Depth => a :: ag
  | Breadth => ag ++ [a]
  end.

(** The activations that one assertion causes are equally recent, and the
    engine leaves their order to the layout of its pattern network.  The
    model fixes it the way that network is laid out: the patterns of the
    rules defined last are reached first, and every activation found is
    placed on the agenda at once.  Under the depth strategy the activation
    of the rule defined first therefore ends on top. *)
Definition activate (s : strategy) (rules : list defrule) (i : nat)
  (wm : list (nat * fact)) (ag : list activation) : list activation :=
  fold_left (place s)
            (flat_map (activations_with i wm) (rev rules)) ag.

(** *** Asserting *)

Definition slot_defined (t : deftemplate) (g : string * value) : bool :=
  existsb (fun d => String.eqb (fst g) (slot_name d)
                    && primitive_type_eqb (type_of (snd g)) (slot_type d))
          (deftemplate_slots t).

Fixpoint no_duplicate_slots (given : list (string * value)) : bool :=
  match given with
  | [] => true
  | (s, _) :: rest =>
      match lookup s rest with
      | Some _ => false
      | None => no_duplicate_slots rest
      end
  end.

Definition slot_value (given : list (string * value)) (d : slot_definition)
  : string * value :=
  (slot_name d,
   match lookup (slot_name d) given with
   | Some v => v
   | None => slot_default d
   end).

(** A template fact from the slots written in an assert: every written slot
    must be a slot of the template, of its type and written once; the slots
    left out take the template's default. *)
Definition instantiate (t : deftemplate) (given : list (string * value))
  : option fact :=
  if forallb (slot_defined t) given && no_duplicate_slots given
  then Some (Fact (deftemplate_name t)
                  (map (slot_value given) (deftemplate_slots t)))
  else None.

Definition find_deftemplate (kb : knowledge_base) (name : string)
  : option deftemplate :=
  find (fun t => String.eqb name (deftemplate_name t)) (deftemplates kb).

(** Adding a fact: a fact equal to one already present is not added again;
    otherwise it takes the next index, the activations whose negated
    patterns it satisfies leave the agenda and the activations it completes
    enter it. *)
Definition assert_fact (f : fact) (env : environment) : environment :=
  if existsb (fun e => fact_eqb f (snd e)) (fact_list env) then env
  else
    let i := next_index env in
    let wm := fact_list env ++ [(i, f)] in
    let kept :=
      filter (fun a => negations_hold (lhs (activation_rule a)) wm)
             (agenda env) in
    {| constructs := constructs env;
       conflict_strategy := conflict_strategy env;
       fact_list := wm;
       next_index := S i;
       agenda := activate (conflict_strategy env)
                          (defrules (constructs env)) i wm kept |}.

(** Asserting a fact of a declared template.  For a name that no
    deftemplate declares the engine makes up an implied template and adds
    it to its constructs; the model does not follow it there. *)
Definition assert_template (tpl : string) (given : list (string * value))
  (env : environment) : outcome environment :=
  match find_deftemplate (constructs env) tpl with
  | Some t =>
      f <- of_option CLIPSError (instantiate t given) ;;
      Done (assert_fact f env)
  | None => Beyond
  end.

(** *** Running *)

Definition perform (env : outcome environment) (a : action)
  : outcome environment :=
  e <- env ;;
  match a with
  | Assert tpl given => assert_template tpl given e
  end.

Definition with_agenda (ag : list activation) (env : environment)
  : environment :=
  {| constructs := constructs env;
     conflict_strategy := conflict_strategy env;
     fact_list := fact_list env;
     next_index := next_index env;
     agenda := ag |}.

(** Firing takes the activation off the agenda and performs the actions of
    its rule in order. *)
Definition fire (a : activation) (rest : list activation) (env : environment)
  : outcome environment :=
  fold_left perform (rhs (activation_rule a)) (Done (with_agenda rest env)).

(** [env.run()]: fire the top activation until the agenda is empty.  The
    engine puts no bound on the number of firings; the model counts them. *)
Fixpoint run (fuel : nat) (env : environment) : outcome environment :=
  match agenda env with
  | [] => Done env
  | a :: rest =>
      match fuel with
      | 0 => OutOfFuel
      | S fuel' => e <- fire a rest env ;; run fuel' e
      end
  end.

(** *** Reading a fact from a string

    The lexer covers the fragment that fact strings of the program are
    written in: parentheses, white space and words.  A word is a maximal
    run of printable characters that are not delimiters; a word that begins
    with a letter or an underscore is a symbol and a word of digits is an
    integer.  Strings with other delimiters, and words that begin otherwise
    (signed and decimal numbers, variables), are outside the fragment. *)

Inductive token : Type :=
| LPAREN
| RPAREN
| WORD (w : string).

Definition is_space (c : ascii) : bool :=
  let n := nat_of_ascii c in
  existsb (Nat.eqb n) [32; 9; 10; 12; 13].

(** Printable and not a delimiter: the double quote, the two parentheses,
    ampersand, vertical bar, less-than, tilde and semicolon. *)
Definition word_char (c : ascii) : bool :=
  let n := nat_of_ascii c in
  Nat.leb 33 n && Nat.leb n 126
  && negb (existsb (Nat.eqb n) [34; 40; 41; 38; 124; 60; 126; 59]).

Definition is_letter (c : ascii) : bool :=
  let n := nat_of_ascii c in
  (Nat.leb 65 n && Nat.leb n 90) || (Nat.leb 97 n && Nat.leb n 122).

Definition flush (word : string) (ts : list token) : list token :=
  match word with
  | EmptyString => ts
  | String _ _ => WORD word :: ts
  end.

Fixpoint scan (word : string) (s : string) : option (list token) :=
  match s with
  | EmptyString => Some (flush word [])
  | String c s' =>
      if word_char c then scan (word ++ String c EmptyString) s'
      else if is_space c then option_map (flush word) (scan EmptyString s')
      else if Ascii.eqb c "(" then
        option_map (fun ts => flush word (LPAREN :: ts)) (scan EmptyString s')
      else if Ascii.eqb c ")" then
        option_map (fun ts => flush word (RPAREN :: ts)) (scan EmptyString s')
      else None
  end.

Definition is_digit (c : ascii) : bool :=
  let n := nat_of_ascii c in
  Nat.leb 48 n && Nat.leb n 57.

Definition symbol_start (c : ascii) : bool :=
  is_letter c || Nat.eqb (nat_of_ascii c) 95.

Fixpoint all_digits (s : string) : bool :=
  match s with
  | EmptyString => true
  | String c s' => is_digit c && all_digits s'
  end.

(** What is written for a slot: a symbol, an integer, or nothing between
    the slot name and the closing parenthesis. *)
Inductive field : Type :=
| Field_symbol (s : string)
| Field_integer (digits : string)
| Field_missing.

Definition symbol_of_word (w : string) : option value :=
  match w with
  | EmptyString => None
  | String c _ => if symbol_start c then Some (SYMBOL w) else None
  end.

Definition field_of_word (w : string) : option field :=
  match symbol_of_word w with
  | Some _ => Some (Field_symbol w)
  | None =>
      match w with
      | EmptyString => None
      | String _ _ => if all_digits w then Some (Field_integer w) else None
      end
  end.

(** [(slot value) ... )] up to the parenthesis that closes the fact. *)
Fixpoint parse_slots (ts : list token) : option (list (string * field)) :=
  match ts with
  | [RPAREN] => Some []
  | LPAREN :: WORD s :: WORD w :: RPAREN :: rest =>
      match field_of_word w, parse_slots rest with
      | Some v, Some given => Some ((s, v) :: given)
      | _, _ => None
      end
  | LPAREN :: WORD s :: RPAREN :: rest =>
      option_map (cons (s, Field_missing)) (parse_slots rest)
  | _ => None
  end.

Definition parse_fact (ts : list token)
  : option (string * list (string * field)) :=
  match ts with
  | LPAREN :: WORD t :: rest => option_map (pair t) (parse_slots rest)
  | _ => None
  end.

Definition read_fact (s : string) : option (string * list (string * field)) :=
  match scan EmptyString s with
  | Some ts => parse_fact ts
  | None => None
  end.

(** The values of the written slots, when each holds a symbol.  The slots
    of the model are single fields of type SYMBOL or STRING, so an integer,
    or nothing, written for a slot of a declared template is refused. *)
Fixpoint written_values (fields : list (string * field))
  : option (list (string * value)) :=
  match fields with
  | [] => Some []
  | (s, Field_symbol v) :: rest =>
      option_map (cons (s, SYMBOL v)) (written_values rest)
  | (_, Field_integer _) :: _ => None
  | (_, Field_missing) :: _ => None
  end.

(** [env.assert_string(s)] *)
Definition assert_string (s : string) (env : environment)
  : outcome environment :=
  match read_fact s with
  | Some (tpl, fields) =>
      match find_deftemplate (constructs env) tpl with
      | Some _ =>
          match written_values fields with
          | Some given => assert_template tpl given env
          | None => Raised CLIPSError
          end
      | None => Beyond
      end
  | None => Beyond
  end.

End Clips.

Import Clips.

(** ** The knowledge base *)

Definition patient : deftemplate :=
  Deftemplate "patient"
    [ Slot "fever" TSYMBOL (SYMBOL "no");
      Slot "cough" TSYMBOL (SYMBOL "no");
      Slot "loss-of-smell" TSYMBOL (SYMBOL "no");
      Slot "contact-with-patient" TSYMBOL (SYMBOL "no") ].

(** The [message] slot states no default; a STRING slot then defaults to
    the empty string. *)
Definition result : deftemplate :=
  Deftemplate "result" [ Slot "message" TSTRING (STRING EmptyString) ].

Definition high_risk_message : string :=
  "Diagnosis: High Risk for COVID-19. Please get tested immediately and isolate.".

Definition moderate_risk_message : string :=
  "Diagnosis: Moderate Risk for COVID-19. Monitor symptoms closely and consider testing.".

Definition low_risk_message : string :=
  "Diagnosis: Low Risk. Symptoms may be due to other causes. Monitor your health.".

Definition rule_1_high_risk : defrule :=
  Defrule "rule-1-high-risk"
    "Rule 1: High risk if patient has fever and loss of smell"
    [ CE_pattern (Pattern "patient"
        [ ("fever", SYMBOL "yes"); ("loss-of-smell", SYMBOL "yes") ]) ]
    [ Assert "result" [ ("message", STRING high_risk_message) ] ].

Definition rule_2_moderate_risk : defrule :=
  Defrule "rule-2-moderate-risk"
    "Rule 2: Moderate risk if patient has fever, cough, and known contact"
    [ CE_pattern (Pattern "patient"
        [ ("fever", SYMBOL "yes"); ("cough", SYMBOL "yes");
          ("contact-with-patient", SYMBOL "yes") ]);
      CE_not (Pattern "result" []) ]
    [ Assert "result" [ ("message", STRING moderate_risk_message) ] ].

Definition rule_3_low_risk : defrule :=
  Defrule "rule-3-low-risk"
    "Rule 3: Low risk default"
    [ CE_pattern (Pattern "patient" []);
      CE_not (Pattern "result" []) ]
    [ Assert "result" [ ("message", STRING low_risk_message) ] ].

Definition KNOWLEDGE_BASE : knowledge_base :=
  Constructs [ patient; result ]
             [ rule_1_high_risk; rule_2_moderate_risk; rule_3_low_risk ].

(** ** The application object *)

Record CovidExpertSystem : Type := App {
  env : environment;
  fever_var : string;
  cough_var : string;
  loss_of_smell_var : string;
  contact_var : string;
  result_var : string
}.

(** The object as [__init__] leaves it when the rules load. *)
Definition __init__ : CovidExpertSystem :=
  {| env := load KNOWLEDGE_BASE new_environment;
     fever_var := "no";
     cough_var := "no";
     loss_of_smell_var := "no";
     contact_var := "no";
     result_var := "Diagnosis will appear here." |}.

Definition could_not_determine : string := "Could not determine diagnosis.".

(** [fact['message']] as a Python string. *)
Definition getitem (f : fact) (slot : string) : outcome string :=
  match lookup slot (slot_values f) with
  | Some (SYMBOL s) => Done s
  | Some (STRING s) => Done s
  | None => Raised KeyError
  end.

(** The loop over [env.facts()]: [Some m] when it leaves through [break]
    with [result_found] set and [m] displayed, [None] when it runs out. *)
Fixpoint find_result (fs : list fact) : outcome (option string) :=
  match fs with
  | [] => Done None
  | f :: rest =>
      if String.eqb (template_name f) "result"
      then m <- getitem f "message" ;; Done (Some m)
      else find_result rest
  end.

Definition fact_string (fever cough loss_of_smell contact : string) : string :=
  "(patient (fever " ++ fever ++ ") (cough " ++ cough
  ++ ") (loss-of-smell " ++ loss_of_smell
  ++ ") (contact-with-patient " ++ contact ++ "))".

Definition set_result (self : CovidExpertSystem) (e : environment)
  (m : string) : CovidExpertSystem :=
  {| env := e;
     fever_var := fever_var self;
     cough_var := cough_var self;
     loss_of_smell_var := loss_of_smell_var self;
     contact_var := contact_var self;
     result_var := m |}.

Definition run_diagnosis (fuel : nat) (self : CovidExpertSystem)
  : outcome CovidExpertSystem :=
  let e0 := reset (env self) in
  let fever := fever_var self in
  let cough := cough_var self in
  let loss_of_smell := loss_of_smell_var self in
  let contact := contact_var self in
  e1 <- assert_string (fact_string fever cough loss_of_smell contact) e0 ;;
  e2 <- run fuel e1 ;;
  found <- find_result (facts e2) ;;
  match found with
  | Some m => Done (set_result self e2 m)
  | None => Done (set_result self e2 could_not_determine)
  end.

(** The four check boxes.  Each is bound to one variable with
    [onvalue="yes"] and [offvalue="no"]; a click flips the variable between
    the two. *)
Inductive checkbutton : Type := cb_fever | cb_cough | cb_smell | cb_contact.

Definition onvalue : string := "yes".
Definition offvalue : string := "no".

Definition flip (v : string) : string :=
  if String.eqb v onvalue then offvalue else onvalue.

Definition click (cb : checkbutton) (self : CovidExpertSystem)
  : CovidExpertSystem :=
  {| env := env self;
     fever_var :=
       match cb with cb_fever => flip (fever_var self) | _ => fever_var self end;
     cough_var :=
       match cb with cb_cough => flip (cough_var self) | _ => cough_var self end;
     loss_of_smell_var :=
       match cb with
       | cb_smell => flip (loss_of_smell_var self)
       | _ => loss_of_smell_var self
       end;
     contact_var :=
       match cb with
       | cb_contact => flip (contact_var self)
       | _ => contact_var self
       end;
     result_var := result_var self |}.

(** ** The classifier of the specification, seen through the program *)

Record SymptomRecord : Type := Symptoms {
  fever : bool;
  cough : bool;
  lossOfSmell : bool;
  contactWithCase : bool
}.

Definition answer (b : bool) : string := if b then onvalue else offvalue.

(** The form filled in as the record says. *)
Definition with_answers (fever cough loss_of_smell contact : string)
  (self : CovidExpertSystem) : CovidExpertSystem :=
  {| env := env self;
     fever_var := fever;
     cough_var := cough;
     loss_of_smell_var := loss_of_smell;
     contact_var := contact;
     result_var := result_var self |}.

Definition fill_in (r : SymptomRecord) (self : CovidExpertSystem)
  : CovidExpertSystem :=
  with_answers (answer (fever r)) (answer (cough r))
               (answer (lossOfSmell r)) (answer (contactWithCase r)) self.

(** [classify]: fill in the form, press the button, read the label. *)
Definition classify (fuel : nat) (self : CovidExpertSystem) (r : SymptomRecord)
  : outcome string :=
  a <- run_diagnosis fuel (fill_in r self) ;; Done (result_var a).

(** Only the boxes whose flag is set are clicked. *)
Definition click_if (b : bool) (cb : checkbutton) (self : CovidExpertSystem)
  : CovidExpertSystem :=
  if b then click cb self else self.

Definition tick_boxes (r : SymptomRecord) (self : CovidExpertSystem)
  : CovidExpertSystem :=
  click_if (contactWithCase r) cb_contact
    (click_if (lossOfSmell r) cb_smell
       (click_if (cough r) cb_cough
          (click_if (fever r) cb_fever self))).

(** The else-if chain of section 4.1 of the specification, written from
    its words and not from the rules. *)
Inductive risk : Type := high | moderate | low.

Definition spec_classify (r : SymptomRecord) : risk :=
  if fever r && lossOfSmell r then high
  else if fever r && cough r && contactWithCase r then moderate
  else low.

Definition spec_message (t : risk) : string :=
  match t with
  | high => high_risk_message
  | moderate => moderate_risk_message
  | low => low_risk_message
  end.

(** ** Vocabulary for the statements *)

(** The rules are loaded and the engine is in the state a fresh
    [clips.Environment()] has after the load: every state the program
    reaches after a successful [__init__] is such. *)
Definition rules_loaded (self : CovidExpertSystem) : Prop :=
  constructs (env self) = KNOWLEDGE_BASE
  /\ conflict_strategy (env self) = Depth.

Definition is_yes (s : string) : bool := symbol_eqb s "yes".

Definition patient_fact (f c l k : string) : fact :=
  Fact "patient"
    [ ("fever", SYMBOL f); ("cough", SYMBOL c);
      ("loss-of-smell", SYMBOL l); ("contact-with-patient", SYMBOL k) ].

Definition result_fact (m : string) : fact :=
  Fact "result" [ ("message", STRING m) ].

Definition is_result (f : fact) : bool := String.eqb (template_name f) "result".

Definition count_results (fs : list fact) : nat :=
  List.length (filter is_result fs).

(** The sixteen records. *)
Definition all_records : list SymptomRecord :=
  flat_map (fun f =>
    flat_map (fun c =>
      flat_map (fun l =>
        map (fun k => Symptoms f c l k) [true; false])
        [true; false])
      [true; false])
    [true; false].

Definition meets_rule_1 (r : SymptomRecord) : bool := fever r && lossOfSmell r.

(** What the rules make of four slot values. *)
Definition verdict (f c l k : string) : string :=
  if is_yes f && is_yes l then high_risk_message
  else if is_yes f && is_yes c && is_yes k then moderate_risk_message
  else low_risk_message.

(** The environment a run ends in. *)
Definition diagnosed (f c l k : string) : environment :=
  {| constructs := KNOWLEDGE_BASE;
     conflict_strategy := Depth;
     fact_list := [ (1, patient_fact f c l k);
                    (2, result_fact (verdict f c l k)) ];
     next_index := 3;
     agenda := [] |}.

(** Whether the facts [wm] satisfy a left-hand side. *)
Definition satisfied (ces : list conditional_element) (wm : list (nat * fact))
  : bool :=
  match bases ces wm with
  | [] => false
  | _ :: _ => true
  end.

Fixpoint all_word_chars (s : string) : bool :=
  match s with
  | EmptyString => true
  | String c s' => word_char c && all_word_chars s'
  end.

(** A symbol of the modelled fragment: a word that begins with a letter
    or an underscore. *)
Definition plain_symbol (s : string) : bool :=
  match s with
  | EmptyString => false
  | String c _ => symbol_start c && all_word_chars s
  end.

Definition patient_fields (f c l k : string) : list (string * field) :=
  [ ("fever", Field_symbol f); ("cough", Field_symbol c);
    ("loss-of-smell", Field_symbol l);
    ("contact-with-patient", Field_symbol k) ].

(** The value an assert wrote for a slot of the patient, or [no]. *)
Definition written_or_no (given : list (string * value)) (slot : string)
  : value :=
  match lookup slot given with
  | Some v => v
  | None => SYMBOL "no"
  end.

Definition text_of (v : value) : string :=
  match v with
  | SYMBOL s => s
  | STRING s => s
  end.

Definition flag (given : list (string * value)) (slot : string) : string :=
  text_of (written_or_no given slot).

(** A value the engine does not take for a symbol slot: nothing at all,
    or a word of digits. *)
Definition refused (v : string) : bool :=
  match v with
  | EmptyString => true
  | String _ _ => all_digits v
  end.

(** The field that the text [v] between a slot name and the closing
    parenthesis is read as. *)
Definition reads_as (v : string) (fd : field) : Prop :=
  match v with
  | EmptyString => fd = Field_missing
  | String _ _ => field_of_word v = Some fd
  end.

Definition symbol_field (fd : field) : bool :=
  match fd with
  | Field_symbol _ => true
  | Field_integer _ => false
  | Field_missing => false
  end.

(** The templates alone, with no rule. *)
Definition templates_only : knowledge_base :=
  Constructs (deftemplates KNOWLEDGE_BASE) [].

(** The lexer run over the first part [p] of a string: the tokens it has
    produced and the word it is in the middle of when [p] ends. *)
Fixpoint scan_prefix (word : string) (p : string)
  : option (list token * string) :=
  match p with
  | EmptyString => Some ([], word)
  | String c p' =>
      if word_char c then scan_prefix (word ++ String c EmptyString) p'
      else if is_space c then
        option_map (fun r => (flush word (fst r), snd r))
                   (scan_prefix EmptyString p')
      else if Ascii.eqb c "(" then
        option_map (fun r => (flush word (LPAREN :: fst r), snd r))
                   (scan_prefix EmptyString p')
      else if Ascii.eqb c ")" then
        option_map (fun r => (flush word (RPAREN :: fst r), snd r))
                   (scan_prefix EmptyString p')
      else None
  end.

(** The slots an assert leaves out, filled in by hand. *)
Definition spelled_out (t : deftemplate) (given : list (string * value))
  : list (string * value) :=
  map (slot_value given) (deftemplate_slots t).

(** The agenda after the patient fact is asserted. *)
Definition activated (f c l k : string) : list activation :=
  (if is_yes f && is_yes l then [ Activation rule_1_high_risk [1] ] else [])
  ++ (if is_yes f && is_yes c && is_yes k
      then [ Activation rule_2_moderate_risk [1] ] else [])
  ++ [ Activation rule_3_low_risk [1] ].

Definition examined (f c l k : string) : environment :=
  {| constructs := KNOWLEDGE_BASE;
     conflict_strategy := Depth;
     fact_list := [ (1, patient_fact f c l k) ];
     next_index := 2;
     agenda := activated f c l k |}.

Definition patient_slots (f c l k : string) : list (string * value) :=
  slot_values (patient_fact f c l k).

(** A template the engine accepts: slot names differ and every default
    has the type of its slot. *)
Fixpoint distinct (names : list string) : bool :=
  match names with
  | [] => true
  | n :: rest => negb (existsb (String.eqb n) rest) && distinct rest
  end.

Definition default_typed (d : slot_definition) : bool :=
  primitive_type_eqb (type_of (slot_default d)) (slot_type d).

Definition well_formed (t : deftemplate) : bool :=
  distinct (map slot_name (deftemplate_slots t))
  && forallb default_typed (deftemplate_slots t).

(** The states of the program: the object after [__init__], after a click
    on a check box, after a press of the button that returned. *)
Inductive reachable : CovidExpertSystem -> Prop :=
| reach_init : reachable __init__
| reach_click cb self : reachable self -> reachable (click cb self)
| reach_diagnosis fuel self self' :
    reachable self -> run_diagnosis fuel self = Done self' -> reachable self'.

Definition answers_of (r : SymptomRecord) (self : CovidExpertSystem) : Prop :=
  fever_var self = answer (fever r)
  /\ cough_var self = answer (cough r)
  /\ loss_of_smell_var self = answer (lossOfSmell r)
  /\ contact_var self = answer (contactWithCase r).

(** ** Construction of the object

    [__init__] up to the end of its [try] statement calls into [tempfile],
    [os] and the engine.  What those calls do in one run is given from
    outside: each either returns or raises an [Exception] with a text. *)

Inductive step (A : Type) : Type :=
| Ok (a : A)
| Fails (msg : string).

Arguments Ok {A} a.
Arguments Fails {A} msg.

Record platform : Type := Platform {
  NamedTemporaryFile : step string;   (* the name of the file it creates *)
  temp_file_write : step unit;
  env_load : step unit
}.

(** The files that exist and the lines printed so far. *)
Record world : Type := World {
  files : list string;
  stdout : list string
}.

Definition path_exists (path : string) (w : world) : bool :=
  existsb (String.eqb path) (files w).

Definition create (path : string) (w : world) : world :=
  World (path :: files w) (stdout w).

Definition remove (path : string) (w : world) : world :=
  World (filter (fun q => negb (String.eqb path q)) (files w)) (stdout w).

Definition print (line : string) (w : world) : world :=
  World (files w) (stdout w ++ [line]).

(** The attributes of [self] assigned before the [try] statement. *)
Definition assigned_before_try : list string := [ "root"; "env" ].

Inductive constructed : Type :=
| Built (self : CovidExpertSystem)
| AttributeError (name : string).

(** A non-empty string is true. *)
Definition truthy (s : string) : bool :=
  match s with
  | EmptyString => false
  | String _ _ => true
  end.

(** The body of the [try]: the world it leaves, [temp_file_path] and how
    it ended.  The path is assigned after the write, inside the [with]. *)
Definition try_load (p : platform) (w : world)
  : world * option string * step environment :=
  match NamedTemporaryFile p with
  | Fails msg => (w, None, Fails msg)
  | Ok name =>
      match temp_file_write p with
      | Fails msg => (create name w, None, Fails msg)
      | Ok _ =>
          match env_load p with
          | Fails msg => (create name w, Some name, Fails msg)
          | Ok _ =>
              (create name w, Some name,
               Ok (load KNOWLEDGE_BASE new_environment))
          end
      end
  end.

(** The handler prints and then reads [self.result_var], which is assigned
    only further down, with the other variables. *)
Definition except_handler (msg : string) (w : world)
  : world * option string :=
  let w' := print ("FATAL ERROR: Failed to load CLIPS rules: " ++ msg) w in
  if existsb (String.eqb "result_var") assigned_before_try
  then (w', None)
  else (w', Some "result_var").

Definition finally_clause (temp_file_path : option string) (w : world)
  : world :=
  match temp_file_path with
  | Some path =>
      if truthy path && path_exists path w then remove path w else w
  | None => w
  end.

(** [CovidExpertSystem(root)] *)
Definition construct (p : platform) (w : world) : world * constructed :=
  let '(w1, temp_file_path, tried) := try_load p w in
  match tried with
  | Ok e =>
      (finally_clause temp_file_path w1,
       Built {| env := e;
                fever_var := "no";
                cough_var := "no";
                loss_of_smell_var := "no";
                contact_var := "no";
                result_var := "Diagnosis will appear here." |})
  | Fails msg =>
      let '(w2, missing) := except_handler msg w1 in
      match missing with
      | Some name => (finally_clause temp_file_path w2, AttributeError name)
      | None =>
          (finally_clause temp_file_path w2,
           Built {| env := new_environment;
                    fever_var := "no";
                    cough_var := "no";
                    loss_of_smell_var := "no";
                    contact_var := "no";
                    result_var := "Diagnosis will appear here." |})
      end
  end.

(** ** Further vocabulary *)

Definition placeholder : string := "Diagnosis will appear here.".

(** How grave a message is. *)
Definition severity (m : string) : nat :=
  if String.eqb m high_risk_message then 2
  else if String.eqb m moderate_risk_message then 1
  else 0.

(** [r'] answers yes wherever [r] does. *)
Definition at_least (r r' : SymptomRecord) : bool :=
  implb (fever r) (fever r') && implb (cough r) (cough r')
  && implb (lossOfSmell r) (lossOfSmell r')
  && implb (contactWithCase r) (contactWithCase r').

Definition yes_or_no (v : string) : Prop := v = onvalue \/ v = offvalue.

(** Two objects whose engine is set up otherwise than [__init__] does:
    one with the breadth strategy, one with the templates but no rule. *)
Definition breadth_form : CovidExpertSystem :=
  App (Environment KNOWLEDGE_BASE Breadth [] 1 [])
      "yes" "yes" "yes" "yes" "Diagnosis will appear here.".

Definition ruleless_form : CovidExpertSystem :=
  App (Environment templates_only Depth [] 1 [])
      "yes" "no" "yes" "no" "Diagnosis will appear here.".

(** * Properties *)

(** Case analysis on every comparison of a slot with [yes]. *)
Ltac split_yes :=
  repeat match goal with
         | |- context [symbol_eqb ?s "yes"] => destruct (symbol_eqb s "yes")
         end.

(** ** Slot defaults *)

Section Instantiate.

Variable t : deftemplate.
Hypothesis t_ok : well_formed t = true.

Lemma type_eqb_eq a b : primitive_type_eqb a b = true <-> a = b.
Proof. destruct a, b; simpl; split; congruence. Qed.

Lemma lookup_in {A} k (l : list (string * A)) v :
  lookup k l = Some v -> In (k, v) l.
Proof.
  induction l as [|[k' a] l IH]; simpl; [discriminate|].
  destruct (String.eqb_spec k k') as [->|_].
  - intros [= ->]. now left.
  - intros H. right. now apply IH.
Qed.

Lemma lookup_absent {A} k (l : list (string * A)) :
  existsb (String.eqb k) (map fst l) = false -> lookup k l = None.
Proof.
  induction l as [|[k' a] l IH]; simpl; [reflexivity|].
  destruct (String.eqb k k'); simpl; [discriminate | exact IH].
Qed.

Lemma names_of_spelled_out given ds :
  map fst (map (slot_value given) ds) = map slot_name ds.
Proof. rewrite map_map. reflexivity. Qed.

Lemma name_listed d ds n :
  In d ds -> n = slot_name d ->
  existsb (String.eqb n) (map slot_name ds) = true.
Proof.
  intros Hin ->. apply existsb_exists. exists (slot_name d). split.
  - now apply in_map.
  - apply String.eqb_refl.
Qed.

Lemma lookup_spelled_out given ds d :
  distinct (map slot_name ds) = true -> In d ds ->
  lookup (slot_name d) (map (slot_value given) ds)
  = Some (snd (slot_value given d)).
Proof.
  induction ds as [|d0 ds IH]; simpl; [contradiction|].
  intros Hd Hin. apply andb_true_iff in Hd as [Hfresh Hd].
  apply negb_true_iff in Hfresh.
  destruct (String.eqb_spec (slot_name d) (slot_name d0)) as [E|N].
  - destruct Hin as [->|Hin]; [reflexivity|].
    rewrite (name_listed d ds _ Hin (eq_sym E)) in Hfresh. discriminate.
  - destruct Hin as [->|Hin]; [congruence | now apply IH].
Qed.

Lemma slot_defined_unique d g :
  distinct (map slot_name (deftemplate_slots t)) = true ->
  In d (deftemplate_slots t) -> fst g = slot_name d ->
  slot_defined t g = true -> type_of (snd g) = slot_type d.
Proof.
  unfold slot_defined. generalize (deftemplate_slots t) as ds.
  induction ds as [|d0 ds IH]; simpl; [contradiction|].
  intros Hd Hin Hname H. apply andb_true_iff in Hd as [Hfresh Hd].
  apply negb_true_iff in Hfresh.
  apply orb_true_iff in H as [H|H].
  - apply andb_true_iff in H as [Hn Ht]. apply type_eqb_eq in Ht.
    destruct Hin as [->|Hin]; [assumption|].
    apply String.eqb_eq in Hn.
    rewrite (name_listed d ds _ Hin) in Hfresh; congruence.
  - destruct Hin as [->|Hin]; [|now apply IH].
    apply existsb_exists in H as (d1 & Hin1 & H1).
    apply andb_true_iff in H1 as [Hn _]. apply String.eqb_eq in Hn.
    rewrite (name_listed d1 ds _ Hin1) in Hfresh; congruence.
Qed.

Lemma no_duplicates_spelled_out given ds :
  distinct (map slot_name ds) = true ->
  no_duplicate_slots (map (slot_value given) ds) = true.
Proof.
  induction ds as [|d ds IH]; simpl; [reflexivity|].
  intros Hd. apply andb_true_iff in Hd as [Hfresh Hd].
  apply negb_true_iff in Hfresh.
  rewrite lookup_absent; [now apply IH|].
  now rewrite names_of_spelled_out.
Qed.

(** Writing the defaults out by hand gives the same fact. *)
Lemma instantiate_spelled_out given f :
  instantiate t given = Some f ->
  instantiate t (spelled_out t given) = Some f.
Proof.
  unfold instantiate, spelled_out.
  assert (Hd : distinct (map slot_name (deftemplate_slots t)) = true
               /\ forallb default_typed (deftemplate_slots t) = true)
    by (now apply andb_true_iff).
  destruct Hd as [Hd Hdef].
  destruct (forallb (slot_defined t) given && no_duplicate_slots given) eqn:Hg;
    [|discriminate].
  intros [= <-]. apply andb_true_iff in Hg as [Hg _].
  rewrite forallb_forall in Hg, Hdef.
  assert (Hall : forallb (slot_defined t)
                   (map (slot_value given) (deftemplate_slots t)) = true).
  { apply forallb_forall. intros g Hin.
    apply in_map_iff in Hin as (d & <- & Hin).
    unfold slot_defined. apply existsb_exists. exists d. split; [assumption|].
    simpl. rewrite String.eqb_refl. simpl. apply type_eqb_eq.
    destruct (lookup (slot_name d) given) as [v|] eqn:Hl.
    - apply lookup_in in Hl.
      now apply (slot_defined_unique d (slot_name d, v) Hd Hin eq_refl), Hg.
    - apply type_eqb_eq. now apply Hdef. }
  rewrite Hall, (no_duplicates_spelled_out _ _ Hd). simpl. f_equal. f_equal.
  apply map_ext_in. intros d Hin. unfold slot_value at 1.
  now rewrite (lookup_spelled_out given _ d Hd Hin).
Qed.

(** A slot left out of the assert holds the default. *)
Lemma spelled_out_default given d :
  In d (deftemplate_slots t) -> lookup (slot_name d) given = None ->
  lookup (slot_name d) (spelled_out t given) = Some (slot_default d).
Proof.
  intros Hin Hnone. unfold spelled_out.
  assert (Hd : distinct (map slot_name (deftemplate_slots t)) = true)
    by (now apply andb_true_iff in t_ok).
  rewrite (lookup_spelled_out given _ d Hd Hin).
  unfold slot_value. now rewrite Hnone.
Qed.

End Instantiate.

(** ** Reading the fact string *)

Section Lexer.

Lemma append_empty_r (a : string) : (a ++ EmptyString)%string = a.
Proof. induction a as [|x a IH]; simpl; [reflexivity | now rewrite IH]. Qed.

Lemma append_snoc (a : string) (c : ascii) (w : string) :
  ((a ++ String c EmptyString) ++ w)%string = (a ++ String c w)%string.
Proof. induction a as [|x a IH]; simpl; [reflexivity | now rewrite IH]. Qed.

(** A run of word characters is gathered into the word being read. *)
Lemma scan_word (w : string) :
  all_word_chars w = true ->
  forall acc rest, scan acc (w ++ rest) = scan (acc ++ w) rest.
Proof.
  induction w as [|c w IH]; intros Hw acc rest; simpl in *.
  - now rewrite append_empty_r.
  - apply andb_true_iff in Hw as [Hc Hw].
    rewrite Hc, (IH Hw), append_snoc. reflexivity.
Qed.

Lemma scan_fresh_word (w rest : string) :
  all_word_chars w = true -> scan EmptyString (w ++ rest) = scan w rest.
Proof. intros Hw. now rewrite (scan_word w Hw). Qed.

Lemma plain_symbol_word s :
  plain_symbol s = true ->
  all_word_chars s = true /\ field_of_word s = Some (Field_symbol s)
  /\ forall ts, flush s ts = WORD s :: ts.
Proof.
  destruct s as [|c s]; [discriminate|].
  unfold plain_symbol. intros H. apply andb_true_iff in H as [Hl Hw].
  repeat split; [assumption|].
  unfold field_of_word, symbol_of_word. now rewrite Hl.
Qed.

Lemma flush_app word ts ts' : flush word (ts ++ ts') = flush word ts ++ ts'.
Proof. destruct word; reflexivity. Qed.

(** Scanning a string in two parts. *)
Lemma scan_app (p rest : string) :
  forall acc,
    scan acc (p ++ rest)
    = match scan_prefix acc p with
      | Some r => option_map (app (fst r)) (scan (snd r) rest)
      | None => None
      end.
Proof.
  induction p as [|c p IH]; intros acc; simpl.
  - now destruct (scan acc rest).
  - destruct (word_char c); [apply IH|].
    destruct (is_space c); [|destruct (Ascii.eqb c "(");
                              [|destruct (Ascii.eqb c ")"); [|reflexivity]]];
      rewrite IH; destruct (scan_prefix EmptyString p) as [[ts w]|];
      simpl; try reflexivity;
      destruct (scan w rest); simpl; try reflexivity;
      now rewrite <- flush_app.
Qed.

Lemma scan_patient_fever :
  scan_prefix EmptyString "(patient (fever "
  = Some ([LPAREN; WORD "patient"; LPAREN; WORD "fever"], EmptyString).
Proof. vm_compute. reflexivity. Qed.

Lemma scan_cough w :
  scan_prefix w ") (cough "
  = Some (flush w [RPAREN; LPAREN; WORD "cough"], EmptyString).
Proof. vm_compute. reflexivity. Qed.

Lemma scan_loss_of_smell w :
  scan_prefix w ") (loss-of-smell "
  = Some (flush w [RPAREN; LPAREN; WORD "loss-of-smell"], EmptyString).
Proof. vm_compute. reflexivity. Qed.

Lemma scan_contact w :
  scan_prefix w ") (contact-with-patient "
  = Some (flush w [RPAREN; LPAREN; WORD "contact-with-patient"], EmptyString).
Proof. vm_compute. reflexivity. Qed.

Lemma scan_end w : scan w "))" = Some (flush w [RPAREN; RPAREN]).
Proof. vm_compute. reflexivity. Qed.

(** The four values come out of the string as they went in. *)
Lemma read_fact_string f c l k :
  plain_symbol f = true -> plain_symbol c = true ->
  plain_symbol l = true -> plain_symbol k = true ->
  read_fact (fact_string f c l k) = Some ("patient", patient_fields f c l k).
Proof.
  intros Hf Hc Hl Hk.
  apply plain_symbol_word in Hf as (Wf & Sf & Ff).
  apply plain_symbol_word in Hc as (Wc & Sc & Fc).
  apply plain_symbol_word in Hl as (Wl & Sl & Fl).
  apply plain_symbol_word in Hk as (Wk & Sk & Fk).
  unfold read_fact, fact_string.
  rewrite scan_app, scan_patient_fever. cbn [fst snd].
  rewrite (scan_fresh_word f _ Wf).
  rewrite scan_app, scan_cough, Ff. cbn [fst snd].
  rewrite (scan_fresh_word c _ Wc).
  rewrite scan_app, scan_loss_of_smell, Fc. cbn [fst snd].
  rewrite (scan_fresh_word l _ Wl).
  rewrite scan_app, scan_contact, Fl. cbn [fst snd].
  rewrite (scan_fresh_word k _ Wk).
  rewrite scan_end, Fk.
  cbn [option_map app parse_fact parse_slots].
  rewrite Sf, Sc, Sl, Sk. reflexivity.
Qed.

Lemma plain_answer b : plain_symbol (answer b) = true.
Proof. destruct b; reflexivity. Qed.

End Lexer.

(** ** One run of the engine on the knowledge base *)

Section Engine.

Lemma run_idle fuel e : agenda e = [] -> run fuel e = Done e.
Proof. intros H. destruct fuel; simpl; rewrite H; reflexivity. Qed.

Lemma reset_loaded e :
  constructs e = KNOWLEDGE_BASE -> conflict_strategy e = Depth ->
  reset e = Environment KNOWLEDGE_BASE Depth [] 1 [].
Proof. intros H1 H2. unfold reset. rewrite H1, H2. reflexivity. Qed.

(** Asserting the patient: rule 3 is always activated, rules 1 and 2 when
    their slots say yes, and the agenda lists them in that order. *)
Lemma assert_patient e f c l k :
  constructs e = KNOWLEDGE_BASE -> conflict_strategy e = Depth ->
  assert_template "patient" (patient_slots f c l k) (reset e)
  = Done (examined f c l k).
Proof.
  intros H1 H2. rewrite (reset_loaded e H1 H2).
  unfold examined, activated, is_yes.
  cbv -[symbol_eqb]. split_yes; reflexivity.
Qed.

(** The top activation fires and its result fact takes the guarded
    activations below it off the agenda. *)
Lemma run_examined fuel f c l k :
  run (S fuel) (examined f c l k) = Done (diagnosed f c l k).
Proof.
  unfold diagnosed, verdict, examined, activated, is_yes.
  split_yes; simpl app; cbn [run agenda];
    (unfold fire; cbv -[symbol_eqb run]; split_yes;
     apply run_idle; reflexivity).
Qed.

Lemma run_examined_0 f c l k : run 0 (examined f c l k) = OutOfFuel.
Proof.
  unfold examined, activated. simpl.
  destruct (is_yes f && is_yes l); [reflexivity|].
  destruct (is_yes f && is_yes c && is_yes k); reflexivity.
Qed.

Lemma find_result_diagnosed f c l k :
  find_result (facts (diagnosed f c l k)) = Done (Some (verdict f c l k)).
Proof. reflexivity. Qed.

Lemma with_answers_self self :
  with_answers (fever_var self) (cough_var self) (loss_of_smell_var self)
               (contact_var self) self = self.
Proof. destruct self. reflexivity. Qed.

(** A string read as the four slots of a patient is asserted as that
    patient. *)
Lemma assert_string_patient e s f c l k :
  constructs e = KNOWLEDGE_BASE ->
  read_fact s = Some ("patient", patient_fields f c l k) ->
  assert_string s (reset e)
  = assert_template "patient" (patient_slots f c l k) (reset e).
Proof.
  intros H1 Hread. unfold assert_string. rewrite Hread.
  cbn [reset constructs]. rewrite H1. reflexivity.
Qed.

Lemma assert_fact_string self f c l k :
  rules_loaded self ->
  plain_symbol f = true -> plain_symbol c = true ->
  plain_symbol l = true -> plain_symbol k = true ->
  assert_string (fact_string f c l k) (reset (env self))
  = Done (examined f c l k).
Proof.
  intros [H1 H2] Hf Hc Hl Hk.
  rewrite (assert_string_patient _ _ f c l k H1
             (read_fact_string f c l k Hf Hc Hl Hk)).
  now apply assert_patient.
Qed.

(** A press of the button on a form holding four symbols. *)
Lemma diagnosis_of_symbols fuel self f c l k :
  rules_loaded self ->
  plain_symbol f = true -> plain_symbol c = true ->
  plain_symbol l = true -> plain_symbol k = true ->
  run_diagnosis (S fuel) (with_answers f c l k self)
  = Done (set_result (with_answers f c l k self)
                     (diagnosed f c l k) (verdict f c l k)).
Proof.
  intros L Hf Hc Hl Hk. unfold run_diagnosis.
  change (env (with_answers f c l k self)) with (env self).
  cbn [fever_var cough_var loss_of_smell_var contact_var with_answers].
  rewrite (assert_fact_string self f c l k L Hf Hc Hl Hk).
  cbn [bind]. rewrite run_examined. cbn [bind].
  rewrite find_result_diagnosed. reflexivity.
Qed.

Lemma diagnosis_out_of_fuel self f c l k :
  rules_loaded self ->
  plain_symbol f = true -> plain_symbol c = true ->
  plain_symbol l = true -> plain_symbol k = true ->
  run_diagnosis 0 (with_answers f c l k self) = OutOfFuel.
Proof.
  intros L Hf Hc Hl Hk. unfold run_diagnosis.
  change (env (with_answers f c l k self)) with (env self).
  cbn [fever_var cough_var loss_of_smell_var contact_var with_answers].
  rewrite (assert_fact_string self f c l k L Hf Hc Hl Hk).
  cbn [bind]. now rewrite run_examined_0.
Qed.

Lemma diagnosis_of_record fuel self r :
  rules_loaded self ->
  run_diagnosis (S fuel) (fill_in r self)
  = Done (set_result (fill_in r self)
            (diagnosed (answer (fever r)) (answer (cough r))
                       (answer (lossOfSmell r)) (answer (contactWithCase r)))
            (verdict (answer (fever r)) (answer (cough r))
                     (answer (lossOfSmell r)) (answer (contactWithCase r)))).
Proof.
  intros L. unfold fill_in.
  apply diagnosis_of_symbols; auto using plain_answer.
Qed.

Lemma classify_verdict fuel self r :
  rules_loaded self ->
  classify (S fuel) self r
  = Done (verdict (answer (fever r)) (answer (cough r))
                  (answer (lossOfSmell r)) (answer (contactWithCase r))).
Proof.
  intros L. unfold classify. now rewrite diagnosis_of_record.
Qed.

Lemma chain_of_record r :
  verdict (answer (fever r)) (answer (cough r))
          (answer (lossOfSmell r)) (answer (contactWithCase r))
  = spec_message (spec_classify r).
Proof. destruct r as [[] [] [] []]; reflexivity. Qed.

Lemma is_yes_answer b : is_yes (answer b) = b.
Proof. destruct b; reflexivity. Qed.

Lemma is_yes_eq s : is_yes s = true <-> s = "yes".
Proof. apply String.eqb_eq. Qed.

Lemma loaded_after self e m :
  constructs e = KNOWLEDGE_BASE -> conflict_strategy e = Depth ->
  rules_loaded (set_result self e m).
Proof. intros H1 H2. split; assumption. Qed.

Lemma init_loaded : rules_loaded __init__.
Proof. split; reflexivity. Qed.

Lemma flip_answer b : flip (answer b) = answer (negb b).
Proof. destruct b; reflexivity. Qed.

(** Every state of the program has the rules loaded and holds yes or no
    in each of its four variables. *)
Lemma reachable_loaded self :
  reachable self -> rules_loaded self /\ exists r, answers_of r self.
Proof.
  induction 1 as [|cb self _ [L [r (Hf & Hc & Hl & Hk)]]
                  |fuel self self' _ [L [r (Hf & Hc & Hl & Hk)]] Hrun].
  - split; [exact init_loaded|].
    exists (Symptoms false false false false). repeat split.
  - split; [exact L|].
    destruct cb;
      [ exists (Symptoms (negb (fever r)) (cough r) (lossOfSmell r)
                         (contactWithCase r))
      | exists (Symptoms (fever r) (negb (cough r)) (lossOfSmell r)
                         (contactWithCase r))
      | exists (Symptoms (fever r) (cough r) (negb (lossOfSmell r))
                         (contactWithCase r))
      | exists (Symptoms (fever r) (cough r) (lossOfSmell r)
                         (negb (contactWithCase r))) ];
      unfold answers_of; simpl;
      rewrite ?Hf, ?Hc, ?Hl, ?Hk, ?flip_answer; repeat split.
  - rewrite <- (with_answers_self self), Hf, Hc, Hl, Hk in Hrun.
    destruct fuel as [|fuel].
    + rewrite diagnosis_out_of_fuel in Hrun by auto using plain_answer.
      discriminate.
    + rewrite diagnosis_of_symbols in Hrun by auto using plain_answer.
      injection Hrun as <-. split.
      * now apply loaded_after.
      * exists r. repeat split.
Qed.

End Engine.

(** ** The classifier *)

Lemma all_records_complete r : In r all_records.
Proof. destruct r as [[] [] [] []]; simpl; tauto. Qed.

Lemma all_records_sixteen : List.length all_records = 16.
Proof. reflexivity. Qed.

(** C1, as amended. Whenever fever and loss of smell are both answered
    yes, the label shows the high-risk message, whatever the answers to
    cough and contact: rule 1 pre-empts rule 2, the all-yes form included.
    These are four of the sixteen records. *)
Theorem fever_and_smell_give_high_risk fuel self :
  0 < fuel -> rules_loaded self ->
  (forall c k : bool,
     classify fuel self (Symptoms true c true k) = Done high_risk_message)
  /\ List.length (filter meets_rule_1 all_records) = 4.
Proof.
  intros Hfuel L. destruct fuel as [|fuel]; [lia|].
  split; [|reflexivity]. intros c k.
  rewrite (classify_verdict fuel self _ L).
  destruct c, k; reflexivity.
Qed.

Lemma fever_and_smell_give_high_risk_witness :
  0 < 1 /\ rules_loaded __init__
  /\ classify 1 __init__ (Symptoms true true true true)
     = Done high_risk_message.
Proof.
  split; [lia|]. split; [exact init_loaded|].
  apply (fever_and_smell_give_high_risk 1 __init__); [lia | exact init_loaded].
Defined.

(** C1, as stated, counts eight records with fever and loss of smell; the
    two remaining answers leave four. *)
Lemma fever_and_smell_are_not_eight_records :
  ~ ((forall c k : bool,
        classify 1 __init__ (Symptoms true c true k) = Done high_risk_message)
     /\ List.length (filter meets_rule_1 all_records) = 8).
Proof. intros [_ H]. discriminate H. Qed.

(** C2. For each of the sixteen forms the press of the button returns, the
    label shows exactly one of the three messages of the rules, and the
    loop over the facts leaves through [break]: the branch that sets
    the could-not-determine text is not taken when the rules are loaded. *)
Theorem classify_total fuel self r :
  0 < fuel -> rules_loaded self ->
  exists self',
    run_diagnosis fuel (fill_in r self) = Done self'
    /\ classify fuel self r = Done (result_var self')
    /\ (exists! t : risk, result_var self' = spec_message t)
    /\ find_result (facts (env self')) = Done (Some (result_var self'))
    /\ result_var self' <> could_not_determine.
Proof.
  intros Hfuel L. destruct fuel as [|fuel]; [lia|].
  eexists. split; [apply (diagnosis_of_record fuel self r L)|].
  split; [apply (classify_verdict fuel self r L)|].
  cbn [result_var env set_result]. rewrite find_result_diagnosed.
  rewrite chain_of_record.
  split; [|split; [reflexivity | destruct (spec_classify r); discriminate]].
  exists (spec_classify r). split; [reflexivity|].
  intros t' H. destruct (spec_classify r), t'; (reflexivity || discriminate H).
Qed.

Lemma classify_total_witness :
  0 < 1 /\ rules_loaded __init__
  /\ exists self',
       run_diagnosis 1 (fill_in (Symptoms false true false false) __init__)
       = Done self'
       /\ classify 1 __init__ (Symptoms false true false false)
          = Done (result_var self')
       /\ (exists! t : risk, result_var self' = spec_message t)
       /\ find_result (facts (env self')) = Done (Some (result_var self'))
       /\ result_var self' <> could_not_determine.
Proof.
  split; [lia|]. split; [exact init_loaded|].
  apply classify_total; [lia | exact init_loaded].
Defined.

(** C3. Fever, cough and contact answered yes, and loss of smell answered
    no, give the moderate-risk message. *)
Theorem fever_cough_contact_give_moderate_risk fuel self r :
  0 < fuel -> rules_loaded self ->
  fever r = true -> cough r = true -> contactWithCase r = true ->
  ~ (fever r = true /\ lossOfSmell r = true) ->
  classify fuel self r = Done moderate_risk_message.
Proof.
  intros Hfuel L Hf Hc Hk Hnot. destruct fuel as [|fuel]; [lia|].
  rewrite (classify_verdict fuel self _ L).
  destruct r as [f c l k]. simpl in *. subst.
  destruct l; [exfalso; now apply Hnot | reflexivity].
Qed.

Lemma fever_cough_contact_give_moderate_risk_witness :
  classify 1 __init__ (Symptoms true true false true)
  = Done moderate_risk_message.
Proof.
  apply fever_cough_contact_give_moderate_risk;
    [lia | exact init_loaded | reflexivity | reflexivity | reflexivity |].
  simpl. intros [_ H]. discriminate H.
Defined.

(** C4. A form that meets neither the condition of rule 1 (fever and loss
    of smell) nor that of rule 2 (fever, cough and contact) gives the
    low-risk message; the form with four answers no is one of them. *)
Theorem otherwise_low_risk fuel self r :
  0 < fuel -> rules_loaded self ->
  ~ (fever r = true /\ lossOfSmell r = true) ->
  ~ (fever r = true /\ cough r = true /\ contactWithCase r = true) ->
  classify fuel self r = Done low_risk_message.
Proof.
  intros Hfuel L H1 H2. destruct fuel as [|fuel]; [lia|].
  rewrite (classify_verdict fuel self _ L).
  destruct r as [[] [] [] []]; simpl in *;
    solve [ reflexivity
          | exfalso; apply H1; split; reflexivity
          | exfalso; apply H2; repeat split ].
Qed.

Lemma otherwise_low_risk_witness :
  classify 1 __init__ (Symptoms false false false false)
  = Done low_risk_message.
Proof.
  apply otherwise_low_risk; [lia | exact init_loaded | |];
    simpl; intros [H _]; discriminate H.
Defined.

(** ** Runs of the engine *)

Lemma count_results_diagnosed f c l k :
  count_results (facts (diagnosed f c l k)) = 1.
Proof. reflexivity. Qed.

Lemma agenda_in_rule_order f c l k :
  map activation_rule (agenda (examined f c l k))
  = filter (fun rule => satisfied (lhs rule) (fact_list (examined f c l k)))
           (defrules KNOWLEDGE_BASE).
Proof.
  unfold examined, activated, is_yes. cbv -[symbol_eqb].
  split_yes; reflexivity.
Qed.

Lemma top_of_agenda_decides f c l k :
  exists a rest,
    agenda (examined f c l k) = a :: rest
    /\ rhs (activation_rule a)
       = [ Assert "result" [ ("message", STRING (verdict f c l k)) ] ].
Proof.
  unfold examined, activated, verdict. cbn [agenda].
  destruct (is_yes f && is_yes l);
    [|destruct (is_yes f && is_yes c && is_yes k)];
    eexists; eexists; split; reflexivity.
Qed.

(** C5. Every press of the button leaves exactly one [result] fact in the
    environment.  After the patient is asserted the agenda holds the rules
    whose conditions the facts satisfy, rule 1 before rule 2 before rule 3;
    the rule on top fires, its message is the one displayed, and the
    agenda is empty afterwards. *)
Theorem one_result_per_run fuel self r :
  0 < fuel -> rules_loaded self ->
  exists e1 self',
    assert_string
      (fact_string (answer (fever r)) (answer (cough r))
                   (answer (lossOfSmell r)) (answer (contactWithCase r)))
      (reset (env self)) = Done e1
    /\ map activation_rule (agenda e1)
       = filter (fun rule => satisfied (lhs rule) (fact_list e1))
                (defrules KNOWLEDGE_BASE)
    /\ (exists a rest,
          agenda e1 = a :: rest
          /\ rhs (activation_rule a)
             = [ Assert "result" [ ("message", STRING (result_var self')) ] ])
    /\ run_diagnosis fuel (fill_in r self) = Done self'
    /\ count_results (facts (env self')) = 1
    /\ agenda (env self') = [].
Proof.
  intros Hfuel L. destruct fuel as [|fuel]; [lia|].
  eexists. eexists.
  split; [apply assert_fact_string; auto using plain_answer|].
  split; [apply agenda_in_rule_order|].
  split; [|split; [apply (diagnosis_of_record fuel self r L)|]].
  - apply top_of_agenda_decides.
  - split; reflexivity.
Qed.

Lemma one_result_per_run_witness :
  exists e1 self',
    assert_string (fact_string "yes" "yes" "yes" "yes") (reset (env __init__))
    = Done e1
    /\ map activation_rule (agenda e1)
       = filter (fun rule => satisfied (lhs rule) (fact_list e1))
                (defrules KNOWLEDGE_BASE)
    /\ (exists a rest,
          agenda e1 = a :: rest
          /\ rhs (activation_rule a)
             = [ Assert "result" [ ("message", STRING (result_var self')) ] ])
    /\ run_diagnosis 1 (fill_in (Symptoms true true true true) __init__)
       = Done self'
    /\ count_results (facts (env self')) = 1
    /\ agenda (env self') = [].
Proof.
  apply (one_result_per_run 1 __init__ (Symptoms true true true true));
    [lia | exact init_loaded].
Defined.

(** The outcome of a press depends on the object through the loaded
    constructs, the strategy and the four variables only. *)
Lemma run_diagnosis_history_free fuel a b :
  constructs (env a) = constructs (env b) ->
  conflict_strategy (env a) = conflict_strategy (env b) ->
  fever_var a = fever_var b -> cough_var a = cough_var b ->
  loss_of_smell_var a = loss_of_smell_var b -> contact_var a = contact_var b ->
  run_diagnosis fuel a = run_diagnosis fuel b.
Proof.
  intros Hc Hs Hf Hco Hl Hk. unfold run_diagnosis, reset, set_result.
  rewrite Hc, Hs, Hf, Hco, Hl, Hk. reflexivity.
Qed.

(** C6. A press of the button is a function of the four answers: two
    objects with the rules loaded, whatever facts, agenda, fact indices and
    label earlier presses left in them, show the same message for the same
    record and end with the same environment; pressing again changes
    nothing, and the record of an earlier press does not affect a later
    one. *)
Theorem classify_history_free fuel a b r :
  0 < fuel -> rules_loaded a -> rules_loaded b ->
  exists a' b',
    run_diagnosis fuel (fill_in r a) = Done a'
    /\ run_diagnosis fuel (fill_in r b) = Done b'
    /\ env a' = env b'
    /\ result_var a' = result_var b'
    /\ classify fuel a r = Done (result_var a')
    /\ classify fuel b r = Done (result_var a')
    /\ run_diagnosis fuel a' = Done a'
    /\ classify fuel a' r = Done (result_var a')
    /\ forall r2, classify fuel a' r2 = classify fuel a r2.
Proof.
  intros Hfuel La Lb. destruct fuel as [|fuel]; [lia|].
  eexists. eexists.
  split; [apply (diagnosis_of_record fuel a r La)|].
  split; [apply (diagnosis_of_record fuel b r Lb)|].
  split; [reflexivity|]. split; [reflexivity|].
  split; [apply (classify_verdict fuel a r La)|].
  split; [apply (classify_verdict fuel b r Lb)|].
  assert (La' : rules_loaded
                  (set_result (fill_in r a)
                     (diagnosed (answer (fever r)) (answer (cough r))
                        (answer (lossOfSmell r)) (answer (contactWithCase r)))
                     (verdict (answer (fever r)) (answer (cough r))
                        (answer (lossOfSmell r)) (answer (contactWithCase r)))))
    by (split; reflexivity).
  split; [|split].
  - rewrite <- (with_answers_self (set_result _ _ _)).
    cbn [fever_var cough_var loss_of_smell_var contact_var set_result fill_in
         with_answers].
    rewrite (diagnosis_of_symbols fuel _ _ _ _ _ La')
      by auto using plain_answer.
    reflexivity.
  - rewrite (classify_verdict fuel _ r La'). reflexivity.
  - intros r2.
    rewrite (classify_verdict fuel _ r2 La'), (classify_verdict fuel a r2 La).
    reflexivity.
Qed.

Lemma classify_history_free_witness :
  exists a' b',
    run_diagnosis 1 (fill_in (Symptoms true true false true) __init__)
    = Done a'
    /\ run_diagnosis 1
         (fill_in (Symptoms true true false true)
            (set_result (click cb_smell __init__)
               (diagnosed "yes" "no" "yes" "no") high_risk_message))
       = Done b'
    /\ env a' = env b'
    /\ result_var a' = result_var b'
    /\ classify 1 __init__ (Symptoms true true false true)
       = Done (result_var a')
    /\ classify 1
         (set_result (click cb_smell __init__)
            (diagnosed "yes" "no" "yes" "no") high_risk_message)
         (Symptoms true true false true)
       = Done (result_var a')
    /\ run_diagnosis 1 a' = Done a'
    /\ classify 1 a' (Symptoms true true false true) = Done (result_var a')
    /\ forall r2, classify 1 a' r2 = classify 1 __init__ r2.
Proof.
  apply (classify_history_free 1 __init__
           (set_result (click cb_smell __init__)
              (diagnosed "yes" "no" "yes" "no") high_risk_message)
           (Symptoms true true false true));
    [lia | exact init_loaded | split; reflexivity].
Defined.

(** C7. The three rules, with rules 2 and 3 guarded by [(not (result))] and
    fired from the agenda, show on every one of the sixteen records the
    message of the else-if chain of section 4.1: rule 1, else rule 2, else
    low risk. *)
Theorem rules_refine_else_if_chain fuel self r :
  0 < fuel -> rules_loaded self ->
  classify fuel self r = Done (spec_message (spec_classify r)).
Proof.
  intros Hfuel L. destruct fuel as [|fuel]; [lia|].
  rewrite (classify_verdict fuel self r L). f_equal. apply chain_of_record.
Qed.

Lemma rules_refine_else_if_chain_witness :
  classify 1 __init__ (Symptoms true true true true)
  = Done (spec_message (spec_classify (Symptoms true true true true))).
Proof.
  apply rules_refine_else_if_chain; [lia | exact init_loaded].
Defined.

(** ** Defaults *)

Lemma patient_well_formed : well_formed patient = true.
Proof. reflexivity. Qed.

Lemma patient_defaults d :
  In d (deftemplate_slots patient) -> slot_default d = SYMBOL "no".
Proof.
  simpl. intros [<-|[<-|[<-|[<-|[]]]]]; reflexivity.
Qed.

Lemma tick_boxes_fill_in r : tick_boxes r __init__ = fill_in r __init__.
Proof. destruct r as [[] [] [] []]; reflexivity. Qed.

Lemma written_symbol given slot v :
  forallb (slot_defined patient) given = true ->
  lookup slot given = Some v -> exists s, v = SYMBOL s.
Proof.
  intros Hgiven Hl. apply lookup_in in Hl.
  rewrite forallb_forall in Hgiven. specialize (Hgiven _ Hl).
  destruct v as [s|s]; [now exists s|].
  unfold slot_defined in Hgiven. cbn in Hgiven.
  rewrite !andb_false_r in Hgiven. discriminate.
Qed.

Lemma written_or_no_symbol given slot :
  forallb (slot_defined patient) given = true ->
  written_or_no given slot = SYMBOL (flag given slot).
Proof.
  intros Hgiven. unfold flag, written_or_no.
  destruct (lookup slot given) as [v|] eqn:Hl; [|reflexivity].
  destruct (written_symbol given slot v Hgiven Hl) as [s ->]. reflexivity.
Qed.

(** The fact the engine makes of a patient written with some slots. *)
Lemma instantiate_patient given :
  forallb (slot_defined patient) given && no_duplicate_slots given = true ->
  instantiate patient given
  = Some (patient_fact (flag given "fever") (flag given "cough")
            (flag given "loss-of-smell") (flag given "contact-with-patient")).
Proof.
  intros Hgiven. unfold instantiate. rewrite Hgiven.
  apply andb_true_iff in Hgiven as [Hgiven _].
  unfold patient_fact. f_equal. f_equal.
  change (map (slot_value given) (deftemplate_slots patient))
    with [ ("fever", written_or_no given "fever");
           ("cough", written_or_no given "cough");
           ("loss-of-smell", written_or_no given "loss-of-smell");
           ("contact-with-patient",
            written_or_no given "contact-with-patient") ].
  now rewrite !(written_or_no_symbol given _ Hgiven).
Qed.

Lemma instantiate_patient_slots f c l k :
  instantiate patient (patient_slots f c l k) = Some (patient_fact f c l k).
Proof. reflexivity. Qed.

Lemma assert_template_patient e given pf :
  constructs e = KNOWLEDGE_BASE -> instantiate patient given = Some pf ->
  assert_template "patient" given e = Done (assert_fact pf e).
Proof.
  intros He Hi. unfold assert_template. rewrite He.
  cbn [find_deftemplate find deftemplates KNOWLEDGE_BASE deftemplate_name
       patient String.eqb Ascii.eqb Bool.eqb].
  now rewrite Hi.
Qed.

Lemma facts_after_first_assert pf e :
  facts (assert_fact pf (reset e)) = [ pf ].
Proof. reflexivity. Qed.

(** C8. A flag that is not set counts as no.  In the engine, a patient
    asserted with some slots left out becomes a fact that holds in every
    slot the value written for it, or [no] when none was written; it is the
    fact asserted with those slots written as [no], and it is classified as
    the record whose flags are false where nothing was written.  In the
    form, the four variables start as no, so ticking only the boxes of the
    flags that are set fills the form in as the record says, and the
    patient asserted by a press holds [no] for every box left alone. *)
Theorem flags_default_to_no fuel e given r :
  constructs e = KNOWLEDGE_BASE ->
  forallb (slot_defined patient) given && no_duplicate_slots given = true ->
  (exists e',
     assert_template "patient" given e = Done e'
     /\ assert_template "patient" (spelled_out patient given) e = Done e')
  /\ (forall d, In d (deftemplate_slots patient) ->
        lookup (slot_name d) given = None ->
        lookup (slot_name d) (spelled_out patient given) = Some (SYMBOL "no"))
  /\ (e1 <- assert_template "patient" given e ;;
      e2 <- run fuel e1 ;; find_result (facts e2))
     = (e1 <- assert_template "patient" (spelled_out patient given) e ;;
        e2 <- run fuel e1 ;; find_result (facts e2))
  /\ answers_of (Symptoms false false false false) __init__
  /\ tick_boxes r __init__ = fill_in r __init__
  /\ run_diagnosis fuel (tick_boxes r __init__)
     = run_diagnosis fuel (fill_in r __init__)
  /\ (exists e1 f,
        assert_template "patient" given (reset e) = Done e1
        /\ facts e1 = [ f ]
        /\ template_name f = "patient"
        /\ (forall d, In d (deftemplate_slots patient) ->
              lookup (slot_name d) (slot_values f)
              = Some (written_or_no given (slot_name d)))
        /\ (forall d, In d (deftemplate_slots patient) ->
              lookup (slot_name d) given = None ->
              lookup (slot_name d) (slot_values f) = Some (SYMBOL "no")))
  /\ (conflict_strategy e = Depth -> 0 < fuel ->
      (e1 <- assert_template "patient" given (reset e) ;;
       e2 <- run fuel e1 ;; find_result (facts e2))
      = Done (Some (spec_message (spec_classify
                 (Symptoms (is_yes (flag given "fever"))
                           (is_yes (flag given "cough"))
                           (is_yes (flag given "loss-of-smell"))
                           (is_yes (flag given "contact-with-patient")))))))
  /\ (0 < fuel ->
      exists self',
        run_diagnosis fuel (tick_boxes r __init__) = Done self'
        /\ facts (env self')
           = [ patient_fact (answer (fever r)) (answer (cough r))
                 (answer (lossOfSmell r)) (answer (contactWithCase r));
               result_fact (result_var self') ]
        /\ result_var self' = spec_message (spec_classify r)).
Proof.
  intros He Hgiven.
  assert (Hsame : assert_template "patient" (spelled_out patient given) e
                  = assert_template "patient" given e).
  { unfold assert_template. rewrite He. cbn [find_deftemplate find
      deftemplates KNOWLEDGE_BASE deftemplate_name patient String.eqb
      Ascii.eqb Bool.eqb of_option bind].
    destruct (instantiate patient given) as [f|] eqn:Hi.
    - now rewrite (instantiate_spelled_out patient patient_well_formed given f Hi).
    - unfold instantiate in Hi. rewrite Hgiven in Hi. discriminate. }
  pose proof (instantiate_patient given Hgiven) as Hi.
  assert (Hg : forallb (slot_defined patient) given = true)
    by (now apply andb_true_iff in Hgiven).
  split; [|split; [|split; [|split; [|split; [|split; [|split; [|split]]]]]]].
  - rewrite Hsame, (assert_template_patient e given _ He Hi).
    eexists. split; reflexivity.
  - intros d Hin Hnone.
    rewrite (spelled_out_default patient patient_well_formed given d Hin Hnone).
    now rewrite (patient_defaults d Hin).
  - now rewrite Hsame.
  - repeat split.
  - apply tick_boxes_fill_in.
  - now rewrite tick_boxes_fill_in.
  - rewrite (assert_template_patient (reset e) given _ He Hi).
    eexists. eexists. split; [reflexivity|].
    split; [apply facts_after_first_assert|]. split; [reflexivity|].
    assert (Hall : forall d, In d (deftemplate_slots patient) ->
              lookup (slot_name d)
                (slot_values
                   (patient_fact (flag given "fever") (flag given "cough")
                      (flag given "loss-of-smell")
                      (flag given "contact-with-patient")))
              = Some (written_or_no given (slot_name d))).
    { intros d Hin. rewrite (written_or_no_symbol given _ Hg).
      simpl in Hin. destruct Hin as [<-|[<-|[<-|[<-|[]]]]]; reflexivity. }
    split; [exact Hall|].
    intros d Hin Hnone. rewrite (Hall d Hin).
    unfold written_or_no. now rewrite Hnone.
  - intros Hs Hfuel. destruct fuel as [|fuel]; [lia|].
    rewrite (assert_template_patient (reset e) given _ He Hi).
    rewrite <- (assert_template_patient (reset e)
                  (patient_slots (flag given "fever") (flag given "cough")
                     (flag given "loss-of-smell")
                     (flag given "contact-with-patient")) _ He
                  (instantiate_patient_slots _ _ _ _)).
    rewrite (assert_patient e _ _ _ _ He Hs). cbn [bind].
    rewrite run_examined. cbn [bind]. rewrite find_result_diagnosed.
    rewrite <- chain_of_record. cbn [fever cough lossOfSmell contactWithCase].
    unfold verdict. now rewrite !is_yes_answer.
  - intros Hfuel. destruct fuel as [|fuel]; [lia|].
    rewrite tick_boxes_fill_in, (diagnosis_of_record fuel __init__ r init_loaded).
    eexists. split; [reflexivity|]. split; [reflexivity|].
    apply chain_of_record.
Qed.

Lemma flags_default_to_no_witness :
  (exists e',
     assert_template "patient" [ ("cough", SYMBOL "yes") ] (env __init__)
     = Done e'
     /\ assert_template "patient"
          (spelled_out patient [ ("cough", SYMBOL "yes") ]) (env __init__)
        = Done e')
  /\ spelled_out patient [ ("cough", SYMBOL "yes") ]
     = patient_slots "no" "yes" "no" "no"
  /\ tick_boxes (Symptoms false true false false) __init__
     = fill_in (Symptoms false true false false) __init__
  /\ (exists e1 f,
        assert_template "patient" [ ("cough", SYMBOL "yes") ]
          (reset (env __init__)) = Done e1
        /\ facts e1 = [ f ]
        /\ lookup "fever" (slot_values f) = Some (SYMBOL "no")
        /\ lookup "cough" (slot_values f) = Some (SYMBOL "yes"))
  /\ exists self',
       run_diagnosis 1 (tick_boxes (Symptoms false true false false) __init__)
       = Done self'
       /\ facts (env self')
          = [ patient_fact "no" "yes" "no" "no";
              result_fact (result_var self') ].
Proof.
  destruct (flags_default_to_no 1 (env __init__) [ ("cough", SYMBOL "yes") ]
              (Symptoms false true false false) eq_refl eq_refl)
    as (H1 & _ & _ & _ & H2 & _ & H3 & _ & H4).
  split; [exact H1|]. split; [reflexivity|]. split; [exact H2|]. split.
  - destruct H3 as (e1 & f & Ha & Hf & _ & Hall & Hno).
    exists e1, f. split; [exact Ha|]. split; [exact Hf|]. split.
    + apply (Hno (Slot "fever" TSYMBOL (SYMBOL "no"))); [now left | reflexivity].
    + apply (Hall (Slot "cough" TSYMBOL (SYMBOL "no"))). right. now left.
  - destruct (H4 (le_n 1)) as (self' & Hrun & Hfacts & _).
    exists self'. split; [exact Hrun | exact Hfacts].
Defined.

(** ** Values other than yes *)

(** C9. The rules test each slot against the symbol [yes] and nothing
    else.  Whatever four symbols the patient fact holds, the message is
    the one of the record that reads every slot other than [yes] as a no;
    when the slots meet neither rule 1 nor rule 2 it is the low-risk
    message.  The fact string carries the values of the variables into the
    slots as they are: no value is checked or replaced on the way. *)
Theorem only_yes_counts fuel self f c l k :
  0 < fuel -> rules_loaded self ->
  (exists m,
     (e1 <- assert_template "patient" (patient_slots f c l k)
              (reset (env self)) ;;
      e2 <- run fuel e1 ;; find_result (facts e2)) = Done (Some m)
     /\ classify fuel self (Symptoms (is_yes f) (is_yes c) (is_yes l) (is_yes k))
        = Done m
     /\ (~ (f = "yes" /\ l = "yes") ->
         ~ (f = "yes" /\ c = "yes" /\ k = "yes") ->
         m = low_risk_message
         /\ exists e1,
              assert_template "patient" (patient_slots f c l k)
                (reset (env self)) = Done e1
              /\ map activation_rule (agenda e1) = [ rule_3_low_risk ]))
  /\ (plain_symbol f = true -> plain_symbol c = true ->
      plain_symbol l = true -> plain_symbol k = true ->
      exists self',
        assert_string (fact_string f c l k) (reset (env self))
        = assert_template "patient" (patient_slots f c l k) (reset (env self))
        /\ run_diagnosis fuel (with_answers f c l k self) = Done self'
        /\ facts (env self')
           = [ patient_fact f c l k; result_fact (result_var self') ]
        /\ classify fuel self
             (Symptoms (is_yes f) (is_yes c) (is_yes l) (is_yes k))
           = Done (result_var self')).
Proof.
  intros Hfuel L. destruct fuel as [|fuel]; [lia|].
  assert (Hv : verdict (answer (is_yes f)) (answer (is_yes c))
                       (answer (is_yes l)) (answer (is_yes k))
               = verdict f c l k)
    by (unfold verdict; now rewrite !is_yes_answer).
  split.
  - exists (verdict f c l k). destruct L as [H1 H2].
    rewrite (assert_patient _ f c l k H1 H2). cbn [bind].
    rewrite run_examined. cbn [bind].
    split; [apply find_result_diagnosed|]. split.
    + rewrite (classify_verdict fuel self _ (conj H1 H2)). cbn [fever cough
        lossOfSmell contactWithCase]. now rewrite Hv.
    + intros N1 N2.
      assert (E1 : is_yes f && is_yes l = false).
      { destruct (is_yes f) eqn:Ef, (is_yes l) eqn:El; try reflexivity.
        exfalso. apply N1. split; now apply is_yes_eq. }
      assert (E2 : is_yes f && is_yes c && is_yes k = false).
      { destruct (is_yes f) eqn:Ef, (is_yes c) eqn:Ec, (is_yes k) eqn:Ek;
          try reflexivity.
        exfalso. apply N2. repeat split; now apply is_yes_eq. }
      split.
      * unfold verdict. now rewrite E1, E2.
      * exists (examined f c l k). split; [reflexivity|].
        unfold examined, activated. cbn [agenda]. now rewrite E1, E2.
  - intros Hf Hc Hl Hk. eexists.
    split; [|split; [apply (diagnosis_of_symbols fuel self f c l k L Hf Hc Hl Hk)|]].
    + rewrite (assert_fact_string self f c l k L Hf Hc Hl Hk).
      destruct L as [H1 H2]. now rewrite (assert_patient _ f c l k H1 H2).
    + split; [reflexivity|].
      rewrite (classify_verdict fuel self _ L). cbn [fever cough lossOfSmell
        contactWithCase result_var set_result]. now rewrite Hv.
Qed.

Lemma only_yes_counts_witness :
  (exists e1,
     assert_template "patient" (patient_slots "Yes" "yes" "yes" "yes")
       (reset (env __init__)) = Done e1
     /\ map activation_rule (agenda e1) = [ rule_3_low_risk ])
  /\ exists self',
    run_diagnosis 1 (with_answers "yes" "YES" "maybe" "y" __init__)
    = Done self'
    /\ facts (env self')
       = [ patient_fact "yes" "YES" "maybe" "y";
           result_fact (result_var self') ]
    /\ classify 1 __init__ (Symptoms true false false false)
       = Done (result_var self').
Proof.
  split.
  - destruct (proj1 (only_yes_counts 1 __init__ "Yes" "yes" "yes" "yes"
                       (le_n 1) init_loaded))
      as (m & _ & _ & Hlow).
    apply Hlow; intros [H _]; discriminate H.
  - destruct (proj2 (only_yes_counts 1 __init__ "yes" "YES" "maybe" "y"
                       (le_n 1) init_loaded)
                eq_refl eq_refl eq_refl eq_refl)
      as (self' & _ & Hrun & Hfacts & Hclass).
    exists self'. repeat split; assumption.
Defined.

(** ** The label *)

Lemma find_result_first pre f post :
  count_results pre = 0 -> is_result f = true ->
  find_result (pre ++ f :: post) = (m <- getitem f "message" ;; Done (Some m)).
Proof.
  unfold count_results, is_result.
  induction pre as [|g pre IH]; simpl; intros Hpre Hf.
  - now rewrite Hf.
  - destruct (String.eqb (template_name g) "result"); [discriminate|].
    now apply IH.
Qed.

Lemma find_result_none fs :
  find_result fs = Done None <-> count_results fs = 0.
Proof.
  unfold count_results, is_result.
  induction fs as [|g fs IH]; simpl; [tauto|].
  destruct (String.eqb (template_name g) "result"); [|exact IH].
  simpl. split; [|discriminate].
  destruct (getitem g "message"); discriminate.
Qed.

Lemma first_result_exists fs :
  count_results fs <> 0 ->
  exists pre f post,
    fs = pre ++ f :: post /\ count_results pre = 0 /\ is_result f = true.
Proof.
  unfold count_results.
  induction fs as [|g fs IH]; simpl; [congruence|].
  destruct (is_result g) eqn:Hg.
  - intros _. exists [], g, fs. repeat split. exact Hg.
  - intros H. destruct (IH H) as (pre & f & post & -> & Hpre & Hf).
    exists (g :: pre), f, post. simpl. rewrite Hg. repeat split; assumption.
Qed.

(** The press once the engine has returned [e2]. *)
Lemma run_diagnosis_after_engine fuel self e1 e2 :
  assert_string
    (fact_string (fever_var self) (cough_var self)
                 (loss_of_smell_var self) (contact_var self))
    (reset (env self)) = Done e1 ->
  run fuel e1 = Done e2 ->
  run_diagnosis fuel self
  = (found <- find_result (facts e2) ;;
     match found with
     | Some m => Done (set_result self e2 m)
     | None => Done (set_result self e2 could_not_determine)
     end).
Proof.
  intros H1 H2. unfold run_diagnosis.
  rewrite H1. cbn [bind]. rewrite H2. reflexivity.
Qed.

(** C10. Once the engine has run, the press returns and the label is
    settled by the loop over the facts: it takes the [message] slot of the
    first [result] fact and stops there, whatever facts follow, and it
    takes the could-not-determine text when there is no [result] fact.
    So long as no [result] fact carries that very text, the label holds
    it if and only if the environment has no [result] fact.  In every
    state of the program the press finds a [result] fact, right after the
    patient, and the label is its message. *)
Theorem label_shows_first_result fuel self :
  (forall pre f post,
     count_results pre = 0 -> is_result f = true ->
     find_result (pre ++ f :: post)
     = (m <- getitem f "message" ;; Done (Some m)))
  /\ (forall fs, find_result fs = Done None <-> count_results fs = 0)
  /\ (forall e1 e2,
        assert_string
          (fact_string (fever_var self) (cough_var self)
                       (loss_of_smell_var self) (contact_var self))
          (reset (env self)) = Done e1 ->
        run fuel e1 = Done e2 ->
        (forall pre f post m,
           facts e2 = pre ++ f :: post -> count_results pre = 0 ->
           is_result f = true -> getitem f "message" = Done m ->
           run_diagnosis fuel self = Done (set_result self e2 m))
        /\ (count_results (facts e2) = 0 ->
            run_diagnosis fuel self
            = Done (set_result self e2 could_not_determine))
        /\ ((forall f, In f (facts e2) -> is_result f = true ->
               exists m, getitem f "message" = Done m
                         /\ m <> could_not_determine) ->
            exists self',
              run_diagnosis fuel self = Done self'
              /\ env self' = e2
              /\ (result_var self' = could_not_determine
                  <-> count_results (facts (env self')) = 0)))
  /\ (reachable self -> 0 < fuel ->
      exists self' f,
        run_diagnosis fuel self = Done self'
        /\ facts (env self')
           = [ patient_fact (fever_var self) (cough_var self)
                            (loss_of_smell_var self) (contact_var self); f ]
        /\ is_result f = true
        /\ getitem f "message" = Done (result_var self')
        /\ result_var self' <> could_not_determine).
Proof.
  split; [apply find_result_first|].
  split; [apply find_result_none|].
  split.
  - intros e1 e2 H1 H2.
    pose proof (run_diagnosis_after_engine fuel self e1 e2 H1 H2) as Hrun.
    assert (A : forall pre f post m,
              facts e2 = pre ++ f :: post -> count_results pre = 0 ->
              is_result f = true -> getitem f "message" = Done m ->
              run_diagnosis fuel self = Done (set_result self e2 m)).
    { intros pre f post m Hfs Hpre Hf Hm.
      rewrite Hrun, Hfs, (find_result_first pre f post Hpre Hf), Hm.
      reflexivity. }
    assert (B : count_results (facts e2) = 0 ->
                run_diagnosis fuel self
                = Done (set_result self e2 could_not_determine)).
    { intros H0. apply find_result_none in H0. now rewrite Hrun, H0. }
    split; [exact A|]. split; [exact B|].
    intros Hmsg. destruct (Nat.eq_dec (count_results (facts e2)) 0) as [H0|H0].
    + exists (set_result self e2 could_not_determine).
      split; [exact (B H0)|]. split; [reflexivity|]. cbn [result_var env
        set_result]. tauto.
    + destruct (first_result_exists _ H0) as (pre & f & post & Hfs & Hpre & Hf).
      destruct (Hmsg f) as (m & Hm & Hne);
        [rewrite Hfs; apply in_or_app; right; now left | exact Hf |].
      exists (set_result self e2 m).
      split; [exact (A pre f post m Hfs Hpre Hf Hm)|]. split; [reflexivity|].
      cbn [result_var env set_result]. split; intros; contradiction.
  - intros Hreach Hfuel. destruct fuel as [|fuel]; [lia|].
    destruct (reachable_loaded self Hreach) as [L [r (Hf & Hc & Hl & Hk)]].
    assert (E : self = with_answers (answer (fever r)) (answer (cough r))
                         (answer (lossOfSmell r))
                         (answer (contactWithCase r)) self).
    { rewrite <- Hf, <- Hc, <- Hl, <- Hk. symmetry. apply with_answers_self. }
    assert (R : run_diagnosis (S fuel) self
                = Done (set_result self
                          (diagnosed (answer (fever r)) (answer (cough r))
                             (answer (lossOfSmell r))
                             (answer (contactWithCase r)))
                          (verdict (answer (fever r)) (answer (cough r))
                             (answer (lossOfSmell r))
                             (answer (contactWithCase r))))).
    { rewrite E at 1. rewrite diagnosis_of_symbols by auto using plain_answer.
      now rewrite <- E. }
    eexists. eexists. split; [exact R|].
    split; [rewrite Hf, Hc, Hl, Hk; reflexivity|].
    split; [reflexivity|]. split; [reflexivity|].
    cbn [result_var set_result]. rewrite chain_of_record.
    destruct (spec_classify r); discriminate.
Qed.

Lemma label_shows_first_result_witness :
  (exists e2,
     facts e2 = [ patient_fact "yes" "yes" "yes" "yes";
                  result_fact low_risk_message;
                  result_fact high_risk_message ]
     /\ run_diagnosis 2 breadth_form
        = Done (set_result breadth_form e2 low_risk_message))
  /\ (exists e2,
        count_results (facts e2) = 0
        /\ run_diagnosis 1 ruleless_form
           = Done (set_result ruleless_form e2 could_not_determine))
  /\ exists self' f,
       run_diagnosis 1 (click cb_fever __init__) = Done self'
       /\ facts (env self') = [ patient_fact "yes" "no" "no" "no"; f ]
       /\ getitem f "message" = Done (result_var self').
Proof.
  split; [|split].
  - destruct (label_shows_first_result 2 breadth_form) as (_ & _ & H & _).
    lazymatch eval vm_compute in
      (e1 <- assert_string (fact_string "yes" "yes" "yes" "yes")
               (reset (env breadth_form)) ;;
       e2 <- run 2 e1 ;; Done (e1, e2)) with
    | Done (?a, ?b) =>
        destruct (H a b) as (HA & _);
          [ vm_compute; reflexivity | vm_compute; reflexivity | ];
          exists b; split; [reflexivity|];
          apply (HA [ patient_fact "yes" "yes" "yes" "yes" ]
                    (result_fact low_risk_message)
                    [ result_fact high_risk_message ]);
          reflexivity
    end.
  - destruct (label_shows_first_result 1 ruleless_form) as (_ & _ & H & _).
    lazymatch eval vm_compute in
      (e1 <- assert_string (fact_string "yes" "no" "yes" "no")
               (reset (env ruleless_form)) ;;
       e2 <- run 1 e1 ;; Done (e1, e2)) with
    | Done (?a, ?b) =>
        destruct (H a b) as (_ & HB & _);
          [ vm_compute; reflexivity | vm_compute; reflexivity | ];
          exists b; split; [reflexivity | apply HB; reflexivity]
    end.
  - destruct (label_shows_first_result 1 (click cb_fever __init__))
      as (_ & _ & _ & H).
    destruct (H (reach_click cb_fever __init__ reach_init) (le_n 1))
      as (self' & f & Hrun & Hfacts & _ & Hm & _).
    exists self', f. repeat split; assumption.
Defined.

(** ** The agenda order is what gives the rules their priority *)

(** Rule 1 carries no guard: were the engine switched to the breadth
    strategy, rule 3 would fire first on the all-yes form, rule 1 after it,
    and the label would show the first of two [result] facts. *)
Remark breadth_strategy_shows_low_risk :
  exists self',
    run_diagnosis 2
      (fill_in (Symptoms true true true true)
         (App (Environment KNOWLEDGE_BASE Breadth [] 1 [])
              "no" "no" "no" "no" "Diagnosis will appear here."))
    = Done self'
    /\ result_var self' = low_risk_message
    /\ count_results (facts (env self')) = 2.
Proof. eexists. split; [reflexivity|]. split; reflexivity. Qed.

(** * Further properties of the program *)

(** ** Values that are not symbols *)

Lemma digit_is_word_char c : is_digit c = true -> word_char c = true.
Proof.
  unfold is_digit, word_char. intros H.
  apply andb_true_iff in H as [H1 H2].
  apply Nat.leb_le in H1, H2.
  repeat (apply andb_true_iff; split).
  - apply Nat.leb_le. lia.
  - apply Nat.leb_le. lia.
  - apply negb_true_iff. cbn [existsb].
    repeat (apply orb_false_iff; split); try reflexivity;
      apply Nat.eqb_neq; lia.
Qed.

Lemma digits_are_word_chars v : all_digits v = true -> all_word_chars v = true.
Proof.
  induction v as [|c v IH]; simpl; [reflexivity|].
  intros H. apply andb_true_iff in H as [Hc Hv].
  now rewrite (digit_is_word_char c Hc), IH.
Qed.

Lemma digit_is_no_symbol_start c : is_digit c = true -> symbol_start c = false.
Proof.
  unfold is_digit, symbol_start, is_letter. intros H.
  apply andb_true_iff in H as [H1 H2].
  apply Nat.leb_le in H1, H2.
  repeat (apply orb_false_iff; split);
    try (apply andb_false_iff; left; apply Nat.leb_gt; lia);
    apply Nat.eqb_neq; lia.
Qed.

(** A value that is a symbol, a word of digits or empty, and the field it
    is read as. *)
Lemma value_reads v :
  plain_symbol v || refused v = true ->
  all_word_chars v = true
  /\ exists fd, reads_as v fd
                /\ symbol_field fd = negb (refused v)
                /\ (plain_symbol v = true -> fd = Field_symbol v).
Proof.
  destruct v as [|c v]; [intros _|].
  - split; [reflexivity|]. exists Field_missing.
    repeat split. discriminate.
  - intros H. apply orb_true_iff in H as [H|H].
    + destruct (plain_symbol_word _ H) as (Hw & Hfd & _).
      split; [exact Hw|]. exists (Field_symbol (String c v)).
      split; [exact Hfd|]. split; [|reflexivity].
      unfold plain_symbol in H. apply andb_true_iff in H as [Hs _].
      cbn [refused all_digits symbol_field].
      destruct (is_digit c) eqn:Hd; [|reflexivity].
      rewrite (digit_is_no_symbol_start c Hd) in Hs. discriminate.
    + cbn [refused] in H. split; [now apply digits_are_word_chars|].
      exists (Field_integer (String c v)).
      assert (Hs : symbol_start c = false).
      { apply digit_is_no_symbol_start. cbn in H.
        now apply andb_true_iff in H as [Hc _]. }
      split; [|split].
      * unfold reads_as, field_of_word, symbol_of_word. now rewrite Hs, H.
      * cbn [refused symbol_field]. now rewrite H.
      * unfold plain_symbol. rewrite Hs. discriminate.
Qed.

Lemma parse_slot v fd s rest :
  reads_as v fd ->
  parse_slots (LPAREN :: WORD s :: flush v (RPAREN :: rest))
  = match parse_slots rest with
    | Some given => Some ((s, fd) :: given)
    | None => None
    end.
Proof.
  destruct v as [|c v]; cbn [reads_as flush].
  - intros ->. cbn [parse_slots]. destruct rest as [|t rest].
    + reflexivity.
    + destruct (parse_slots (t :: rest)); reflexivity.
  - intros H. cbn [parse_slots]. rewrite H. reflexivity.
Qed.

Lemma read_fact_fields f c l k ff fc fl fk :
  all_word_chars f = true -> all_word_chars c = true ->
  all_word_chars l = true -> all_word_chars k = true ->
  reads_as f ff -> reads_as c fc -> reads_as l fl -> reads_as k fk ->
  read_fact (fact_string f c l k)
  = Some ("patient",
          [ ("fever", ff); ("cough", fc); ("loss-of-smell", fl);
            ("contact-with-patient", fk) ]).
Proof.
  intros Wf Wc Wl Wk Rf Rc Rl Rk. unfold read_fact, fact_string.
  rewrite scan_app, scan_patient_fever. cbn [fst snd].
  rewrite (scan_fresh_word f _ Wf).
  rewrite scan_app, scan_cough. cbn [fst snd].
  rewrite (scan_fresh_word c _ Wc).
  rewrite scan_app, scan_loss_of_smell. cbn [fst snd].
  rewrite (scan_fresh_word l _ Wl).
  rewrite scan_app, scan_contact. cbn [fst snd].
  rewrite (scan_fresh_word k _ Wk).
  rewrite scan_end. cbn [option_map].
  rewrite <- !flush_app. cbn [app parse_fact option_map].
  rewrite (parse_slot f ff _ _ Rf), (parse_slot c fc _ _ Rc),
    (parse_slot l fl _ _ Rl), (parse_slot k fk _ _ Rk).
  reflexivity.
Qed.

Lemma written_values_refused ff fc fl fk :
  symbol_field ff && symbol_field fc && symbol_field fl && symbol_field fk
  = false ->
  written_values
    [ ("fever", ff); ("cough", fc); ("loss-of-smell", fl);
      ("contact-with-patient", fk) ] = None.
Proof. destruct ff, fc, fl, fk; cbn; (discriminate || reflexivity). Qed.

(** X1. With the rules loaded, whatever facts and agenda are left in the
    engine: when the four variables hold symbols, yes and no or any others,
    the press returns, and it has left the rules loaded, the four answers
    as they were and no activation waiting.  When each variable holds a
    symbol, a word of digits or nothing, and at least one of them is not a
    symbol, the assert is refused and the press ends in a CLIPSError. *)
Theorem press_on_other_values fuel self f c l k :
  0 < fuel -> rules_loaded self ->
  (plain_symbol f = true -> plain_symbol c = true ->
   plain_symbol l = true -> plain_symbol k = true ->
   exists self',
     run_diagnosis fuel (with_answers f c l k self) = Done self'
     /\ rules_loaded self'
     /\ fever_var self' = f /\ cough_var self' = c
     /\ loss_of_smell_var self' = l /\ contact_var self' = k
     /\ agenda (env self') = [])
  /\ (plain_symbol f || refused f = true ->
      plain_symbol c || refused c = true ->
      plain_symbol l || refused l = true ->
      plain_symbol k || refused k = true ->
      refused f || refused c || refused l || refused k = true ->
      run_diagnosis fuel (with_answers f c l k self) = Raised CLIPSError).
Proof.
  intros Hfuel L. split.
  - intros Hf Hc Hl Hk. destruct fuel as [|fuel]; [lia|].
    rewrite (diagnosis_of_symbols fuel self f c l k L Hf Hc Hl Hk).
    eexists. split; [reflexivity|].
    split; [split; reflexivity|]. repeat split.
  - intros Hf Hc Hl Hk Hbad.
    destruct (value_reads f Hf) as (Wf & ff & Rf & Sf & _).
    destruct (value_reads c Hc) as (Wc & fc & Rc & Sc & _).
    destruct (value_reads l Hl) as (Wl & fl & Rl & Sl & _).
    destruct (value_reads k Hk) as (Wk & fk & Rk & Sk & _).
    unfold run_diagnosis, assert_string.
    cbn [fever_var cough_var loss_of_smell_var contact_var with_answers env].
    rewrite (read_fact_fields f c l k ff fc fl fk Wf Wc Wl Wk Rf Rc Rl Rk).
    destruct L as [H1 _]. cbn [reset constructs]. rewrite H1.
    cbn [find_deftemplate find deftemplates KNOWLEDGE_BASE deftemplate_name
         patient String.eqb Ascii.eqb Bool.eqb].
    rewrite written_values_refused; [reflexivity|].
    rewrite Sf, Sc, Sl, Sk.
    destruct (refused f), (refused c), (refused l), (refused k);
      (reflexivity || discriminate Hbad).
Qed.

Lemma press_on_other_values_witness :
  (exists self',
     run_diagnosis 1 (with_answers "_y" "maybe" "yes" "no" __init__)
     = Done self'
     /\ rules_loaded self' /\ fever_var self' = "_y")
  /\ run_diagnosis 1 (with_answers "yes" "123" "no" "yes" __init__)
     = Raised CLIPSError
  /\ run_diagnosis 1 (with_answers "yes" "yes" EmptyString "yes" __init__)
     = Raised CLIPSError.
Proof.
  split; [|split].
  - destruct (proj1 (press_on_other_values 1 __init__ "_y" "maybe" "yes" "no"
                       (le_n 1) init_loaded)
                eq_refl eq_refl eq_refl eq_refl)
      as (self' & Hrun & HL & Hf & _).
    exists self'. split; [exact Hrun|]. split; [exact HL | exact Hf].
  - apply (proj2 (press_on_other_values 1 __init__ "yes" "123" "no" "yes"
                    (le_n 1) init_loaded)); reflexivity.
  - apply (proj2 (press_on_other_values 1 __init__ "yes" "yes" EmptyString
                    "yes" (le_n 1) init_loaded)); reflexivity.
Defined.

(** ** The shape of the classification *)

Lemma messages_differ :
  high_risk_message <> moderate_risk_message
  /\ high_risk_message <> low_risk_message
  /\ moderate_risk_message <> low_risk_message.
Proof. repeat split; discriminate. Qed.

(** X2. Each message is shown for the records of its rule and for no
    others: high risk exactly for fever with loss of smell, moderate risk
    exactly for fever, cough and contact without loss of smell, low risk
    exactly for the rest; without fever the message is always low risk. *)
Theorem message_tells_the_rule fuel self r :
  0 < fuel -> rules_loaded self ->
  (classify fuel self r = Done high_risk_message
   <-> fever r = true /\ lossOfSmell r = true)
  /\ (classify fuel self r = Done moderate_risk_message
      <-> fever r = true /\ cough r = true /\ contactWithCase r = true
          /\ lossOfSmell r = false)
  /\ (classify fuel self r = Done low_risk_message
      <-> ~ (fever r = true /\ lossOfSmell r = true)
          /\ ~ (fever r = true /\ cough r = true /\ contactWithCase r = true))
  /\ (fever r = false -> classify fuel self r = Done low_risk_message).
Proof.
  intros Hfuel L. destruct fuel as [|fuel]; [lia|].
  rewrite (classify_verdict fuel self r L).
  destruct r as [[] [] [] []]; cbn;
    repeat split; intros; try discriminate; try reflexivity; try tauto;
    repeat match goal with
           | H : _ /\ _ |- _ => destruct H
           | H : false = true |- _ => discriminate H
           | H : true = false |- _ => discriminate H
           | H : Done _ = Done _ |- _ => discriminate H
           | |- ~ _ => intro
           end.
Qed.

Lemma message_tells_the_rule_witness :
  (classify 1 __init__ (Symptoms true false true false)
   = Done high_risk_message
   <-> true = true /\ true = true)
  /\ classify 1 __init__ (Symptoms false true true true)
     = Done low_risk_message.
Proof.
  destruct (message_tells_the_rule 1 __init__
              (Symptoms true false true false) (le_n 1) init_loaded)
    as (H1 & _).
  destruct (message_tells_the_rule 1 __init__
              (Symptoms false true true true) (le_n 1) init_loaded)
    as (_ & _ & _ & H4).
  split; [exact H1 | exact (H4 eq_refl)].
Defined.

(** X3. Answering yes to more questions never lowers the risk shown: if
    the second record says yes wherever the first does, its message is at
    least as grave. *)
Theorem more_symptoms_never_lower_the_risk fuel self r r' :
  0 < fuel -> rules_loaded self -> at_least r r' = true ->
  exists m m',
    classify fuel self r = Done m /\ classify fuel self r' = Done m'
    /\ severity m <= severity m'.
Proof.
  intros Hfuel L Hle. destruct fuel as [|fuel]; [lia|].
  rewrite !(classify_verdict fuel self _ L).
  eexists. eexists. split; [reflexivity|]. split; [reflexivity|].
  destruct r as [[] [] [] []], r' as [[] [] [] []];
    try discriminate Hle; vm_compute; lia.
Qed.

Lemma more_symptoms_never_lower_the_risk_witness :
  exists m m',
    classify 1 __init__ (Symptoms true true false false) = Done m
    /\ classify 1 __init__ (Symptoms true true false true) = Done m'
    /\ severity m <= severity m'.
Proof.
  apply more_symptoms_never_lower_the_risk;
    [lia | exact init_loaded | reflexivity].
Defined.

(** ** The states of the form *)

Lemma answer_yes_or_no b : yes_or_no (answer b).
Proof. destruct b; [left | right]; reflexivity. Qed.

Lemma flip_flip v : yes_or_no v -> flip (flip v) = v.
Proof. intros [-> | ->]; reflexivity. Qed.

Lemma reachable_tick_boxes r : reachable (tick_boxes r __init__).
Proof.
  unfold tick_boxes, click_if.
  destruct r as [[] [] [] []]; cbn [fever cough lossOfSmell contactWithCase];
    repeat apply reach_click; apply reach_init.
Qed.

(** X4. The forms the user can bring about are the sixteen records and
    nothing else: every record is reached by ticking its boxes on the new
    form, and in every state of the program each of the four variables
    holds yes or no, with the rules loaded. *)
Theorem forms_are_the_records self r :
  reachable (fill_in r __init__)
  /\ (reachable self ->
      rules_loaded self
      /\ yes_or_no (fever_var self) /\ yes_or_no (cough_var self)
      /\ yes_or_no (loss_of_smell_var self) /\ yes_or_no (contact_var self)
      /\ exists r', answers_of r' self).
Proof.
  split.
  - rewrite <- tick_boxes_fill_in. apply reachable_tick_boxes.
  - intros H. destruct (reachable_loaded self H) as [L [r' A]].
    split; [exact L|]. destruct A as (Hf & Hc & Hl & Hk).
    rewrite Hf, Hc, Hl, Hk.
    repeat (split; [apply answer_yes_or_no|]).
    exists r'. unfold answers_of. rewrite Hf, Hc, Hl, Hk. repeat split.
Qed.

Lemma forms_are_the_records_witness :
  reachable (fill_in (Symptoms true false true false) __init__)
  /\ yes_or_no (fever_var (click cb_fever __init__)).
Proof.
  destruct (forms_are_the_records (click cb_fever __init__)
              (Symptoms true false true false)) as [H1 H2].
  split; [exact H1|].
  destruct (H2 (reach_click cb_fever __init__ reach_init)) as (_ & H & _).
  exact H.
Defined.

(** X5. Clicks compose as on a form of independent boxes: two clicks on
    one box undo each other in every state of the program, clicks on two
    boxes can be made in either order, and no click touches the label or
    the environment, so the label keeps the diagnosis of the answers that
    were pressed. *)
Theorem clicks_compose self a b :
  reachable self ->
  click a (click a self) = self
  /\ click a (click b self) = click b (click a self)
  /\ result_var (click a self) = result_var self
  /\ env (click a self) = env self.
Proof.
  intros H. destruct (reachable_loaded self H) as [_ [r (Hf & Hc & Hl & Hk)]].
  split; [|split; [|split; reflexivity]].
  - destruct self as [e f c l k m]. cbn in Hf, Hc, Hl, Hk. subst.
    destruct a; unfold click; cbn [env fever_var cough_var loss_of_smell_var
      contact_var result_var]; rewrite flip_flip by apply answer_yes_or_no;
      reflexivity.
  - destruct a, b; reflexivity.
Qed.

Lemma clicks_compose_witness :
  click cb_cough (click cb_cough __init__) = __init__
  /\ click cb_cough (click cb_smell __init__)
     = click cb_smell (click cb_cough __init__).
Proof.
  destruct (clicks_compose __init__ cb_cough cb_smell reach_init)
    as (H1 & H2 & _).
  split; [exact H1 | exact H2].
Defined.

Lemma verdict_is_a_message r :
  let m := verdict (answer (fever r)) (answer (cough r))
                   (answer (lossOfSmell r)) (answer (contactWithCase r)) in
  m = high_risk_message \/ m = moderate_risk_message \/ m = low_risk_message.
Proof. destruct r as [[] [] [] []]; cbn; tauto. Qed.

(** X6. In every state of the program the label shows the placeholder
    text or one of the three messages of the rules; it never shows the
    could-not-determine text. *)
Theorem label_invariant self :
  reachable self ->
  (result_var self = placeholder
   \/ result_var self = high_risk_message
   \/ result_var self = moderate_risk_message
   \/ result_var self = low_risk_message)
  /\ result_var self <> could_not_determine.
Proof.
  intros H.
  assert (G : result_var self = placeholder
              \/ result_var self = high_risk_message
              \/ result_var self = moderate_risk_message
              \/ result_var self = low_risk_message).
  { induction H as [|cb self H IH|fuel self self' H IH Hrun].
    - left. reflexivity.
    - exact IH.
    - destruct (reachable_loaded self H) as [L [r (Hf & Hc & Hl & Hk)]].
      rewrite <- (with_answers_self self), Hf, Hc, Hl, Hk in Hrun.
      destruct fuel as [|fuel].
      + rewrite diagnosis_out_of_fuel in Hrun by auto using plain_answer.
        discriminate.
      + rewrite diagnosis_of_symbols in Hrun by auto using plain_answer.
        injection Hrun as <-. right. apply (verdict_is_a_message r). }
  split; [exact G|].
  destruct G as [-> | [-> | [-> | ->]]]; discriminate.
Qed.

Lemma label_invariant_witness :
  result_var (click cb_fever __init__) <> could_not_determine.
Proof.
  apply (label_invariant (click cb_fever __init__)
           (reach_click cb_fever __init__ reach_init)).
Defined.

(** X7. In every state of the program a press of the button returns: the
    fact string is always read as a patient fact, no exception is raised,
    one firing suffices, and the environment then holds the patient with
    the answers as they stand and one result, whose message is the label. *)
Theorem press_always_returns fuel self :
  reachable self -> 0 < fuel ->
  exists self',
    run_diagnosis fuel self = Done self'
    /\ reachable self'
    /\ facts (env self')
       = [ patient_fact (fever_var self) (cough_var self)
                        (loss_of_smell_var self) (contact_var self);
           result_fact (result_var self') ]
    /\ run_diagnosis 0 self = OutOfFuel.
Proof.
  intros H Hfuel. destruct fuel as [|fuel]; [lia|].
  destruct (reachable_loaded self H) as [L [r (Hf & Hc & Hl & Hk)]].
  assert (E : self = with_answers (answer (fever r)) (answer (cough r))
                       (answer (lossOfSmell r)) (answer (contactWithCase r))
                       self).
  { rewrite <- Hf, <- Hc, <- Hl, <- Hk. symmetry. apply with_answers_self. }
  assert (R : run_diagnosis (S fuel) self
              = Done (set_result self
                        (diagnosed (answer (fever r)) (answer (cough r))
                           (answer (lossOfSmell r))
                           (answer (contactWithCase r)))
                        (verdict (answer (fever r)) (answer (cough r))
                           (answer (lossOfSmell r))
                           (answer (contactWithCase r))))).
  { rewrite E at 1. rewrite diagnosis_of_symbols by auto using plain_answer.
    now rewrite <- E. }
  eexists. split; [exact R|]. split; [|split].
  - exact (reach_diagnosis (S fuel) self _ H R).
  - rewrite Hf, Hc, Hl, Hk. reflexivity.
  - rewrite E. apply diagnosis_out_of_fuel; auto using plain_answer.
Qed.

Lemma press_always_returns_witness :
  exists self',
    run_diagnosis 1 (click cb_contact __init__) = Done self'
    /\ reachable self'
    /\ facts (env self')
       = [ patient_fact "no" "no" "no" "yes"; result_fact (result_var self') ]
    /\ run_diagnosis 0 (click cb_contact __init__) = OutOfFuel.
Proof.
  apply (press_always_returns 1 (click cb_contact __init__));
    [exact (reach_click cb_contact __init__ reach_init) | lia].
Defined.

(** ** Construction *)

Lemma filter_absent name fs :
  existsb (String.eqb name) fs = false ->
  filter (fun q => negb (String.eqb name q)) fs = fs.
Proof.
  induction fs as [|q fs IH]; [reflexivity|].
  cbn. intros H. apply orb_false_iff in H as [Hq Hfs].
  rewrite Hq. cbn. now rewrite IH.
Qed.

(** The [finally] clause on a world in which the named file was created. *)
Lemma finally_removes name w w' :
  truthy name = true -> path_exists name w = false ->
  files w' = name :: files w ->
  files (finally_clause (Some name) w') = files w.
Proof.
  intros Ht Hfresh Hfiles. unfold finally_clause, path_exists, remove.
  rewrite Ht, Hfiles. cbn. rewrite String.eqb_refl. cbn.
  now apply filter_absent.
Qed.

(** X8. When the temporary file is written and the rules load,
    construction builds the object of [__init__]; when any of the three
    calls raises, the handler prints one line and then itself fails on
    [self.result_var], which is assigned only later: construction ends in
    an AttributeError and no object is built. *)
Theorem construction_outcome p w :
  (forall name,
     NamedTemporaryFile p = Ok name -> temp_file_write p = Ok tt ->
     env_load p = Ok tt ->
     snd (construct p w) = Built __init__
     /\ stdout (fst (construct p w)) = stdout w)
  /\ (forall msg,
        NamedTemporaryFile p = Fails msg
        \/ temp_file_write p = Fails msg
        \/ env_load p = Fails msg ->
        snd (construct p w) = AttributeError "result_var"
        /\ exists msg',
             stdout (fst (construct p w))
             = stdout w
               ++ [ ("FATAL ERROR: Failed to load CLIPS rules: " ++ msg')%string ]).
Proof.
  unfold construct, try_load. split.
  - intros name -> -> ->. cbn. split; [reflexivity|].
    match goal with |- context [if ?b then _ else _] => destruct b end;
      reflexivity.
  - intros msg H.
    destruct (NamedTemporaryFile p) as [name|m1].
    + destruct (temp_file_write p) as [[]|m2].
      * destruct (env_load p) as [[]|m3].
        -- destruct H as [H|[H|H]]; discriminate H.
        -- cbn. split; [reflexivity|]. exists m3.
           match goal with |- context [if ?b then _ else _] => destruct b end;
             reflexivity.
      * cbn. split; [reflexivity|]. exists m2. reflexivity.
    + cbn. split; [reflexivity|]. exists m1. reflexivity.
Qed.

Lemma construction_outcome_witness :
  snd (construct (Platform (Ok "/tmp/rules.clp") (Ok tt) (Ok tt))
                 (World [] []))
  = Built __init__
  /\ snd (construct (Platform (Ok "/tmp/rules.clp") (Ok tt)
                              (Fails "syntax error"))
                    (World [] []))
     = AttributeError "result_var".
Proof.
  split.
  - apply (proj1 (construction_outcome
                    (Platform (Ok "/tmp/rules.clp") (Ok tt) (Ok tt))
                    (World [] [])) "/tmp/rules.clp");
      reflexivity.
  - apply (proj2 (construction_outcome
                    (Platform (Ok "/tmp/rules.clp") (Ok tt)
                              (Fails "syntax error"))
                    (World [] [])) "syntax error").
    right. right. reflexivity.
Defined.

(** X9. The temporary file does not outlive construction when it was
    written: it is removed whether the rules load or not.  When the write
    itself raises, the path has not been assigned yet and the file that was
    created stays behind. *)
Theorem temporary_file_cleanup p w name :
  NamedTemporaryFile p = Ok name -> truthy name = true ->
  path_exists name w = false ->
  (temp_file_write p = Ok tt -> files (fst (construct p w)) = files w)
  /\ (forall msg, temp_file_write p = Fails msg ->
        files (fst (construct p w)) = name :: files w).
Proof.
  intros Hn Ht Hfresh. unfold construct, try_load. rewrite Hn. split.
  - intros ->.
    destruct (env_load p) as [[]|m]; cbn [fst snd except_handler
      assigned_before_try existsb String.eqb Ascii.eqb Bool.eqb orb];
      now apply finally_removes.
  - intros msg ->. reflexivity.
Qed.

Lemma temporary_file_cleanup_witness :
  files (fst (construct (Platform (Ok "/tmp/rules.clp") (Ok tt)
                                  (Fails "syntax error"))
                        (World [ "/tmp/other" ] [])))
  = [ "/tmp/other" ]
  /\ files (fst (construct (Platform (Ok "/tmp/rules.clp") (Fails "disk full")
                                     (Ok tt))
                           (World [ "/tmp/other" ] [])))
     = [ "/tmp/rules.clp"; "/tmp/other" ].
Proof.
  split.
  - apply (proj1 (temporary_file_cleanup
                    (Platform (Ok "/tmp/rules.clp") (Ok tt)
                              (Fails "syntax error"))
                    (World [ "/tmp/other" ] []) "/tmp/rules.clp"
                    eq_refl eq_refl eq_refl)).
    reflexivity.
  - apply (proj2 (temporary_file_cleanup
                    (Platform (Ok "/tmp/rules.clp") (Fails "disk full")
                              (Ok tt))
                    (World [ "/tmp/other" ] []) "/tmp/rules.clp"
                    eq_refl eq_refl eq_refl) "disk full").
    reflexivity.
Defined.
